(** * NY taxi demand pipeline: the batch-fetch notebook

    A shallow embedding of [fetch_batch_raw_data] (notebook cell 7) with the
    parts of Python's [datetime] and of pandas it relies on, and of the
    hourly aggregation it feeds ([transform_raw_data_into_ts_data], imported
    from [src.data_utils]). *)

From Stdlib Require Import ZArith Lia Ascii String.
From stdpp Require Import gmap strings list sorting pretty.

Open Scope Z_scope.

(** ** Python's proleptic Gregorian calendar ([datetime.py]) *)

Module Calendar.

(** [_is_leap(year)]: year % 4 == 0 and (year % 100 != 0 or year % 400 == 0) *)
Definition is_leap (year : Z) : bool :=
  (year mod 4 =? 0) && (negb (year mod 100 =? 0) || (year mod 400 =? 0)).

(** [_days_before_year(year)]: number of days before January 1st of year. *)
Definition days_before_year (year : Z) : Z :=
  let y := year - 1 in
  y * 365 + y / 4 - y / 100 + y / 400.

(** [_DAYS_IN_MONTH], index 1..12 (the entry for other indices is the
    sentinel [-1] of the Python table). *)
Definition DAYS_IN_MONTH (month : Z) : Z :=
  match month with
  | 1 => 31 | 2 => 28 | 3 => 31 | 4 => 30 | 5 => 31 | 6 => 30
  | 7 => 31 | 8 => 31 | 9 => 30 | 10 => 31 | 11 => 30 | 12 => 31
  | _ => -1
  end.

(** [_DAYS_BEFORE_MONTH], the running sum of [_DAYS_IN_MONTH]. *)
Definition DAYS_BEFORE_MONTH (month : Z) : Z :=
  match month with
  | 1 => 0 | 2 => 31 | 3 => 59 | 4 => 90 | 5 => 120 | 6 => 151
  | 7 => 181 | 8 => 212 | 9 => 243 | 10 => 273 | 11 => 304 | 12 => 334
  | _ => -1
  end.

(** [_days_in_month(year, month)] *)
Definition days_in_month (year month : Z) : Z :=
  if (month =? 2) && is_leap year then 29 else DAYS_IN_MONTH month.

(** [_days_before_month(year, month)] *)
Definition days_before_month (year month : Z) : Z :=
  DAYS_BEFORE_MONTH month + (if (2 <? month) && is_leap year then 1 else 0).

(** [_ymd2ord(year, month, day)]: 01-Jan-0001 is day 1. *)
Definition ymd2ord (year month day : Z) : Z :=
  days_before_year year + days_before_month year month + day.

Definition DI400Y : Z := 146097.
Definition DI100Y : Z := 36524.
Definition DI4Y : Z := 1461.

(** [_ord2ymd(n)]: ordinal to (year, month, day). *)
Definition ord2ymd (n : Z) : Z * Z * Z :=
  let n := n - 1 in
  let n400 := n / DI400Y in
  let n := n mod DI400Y in
  let year := n400 * 400 + 1 in
  let n100 := n / DI100Y in
  let n := n mod DI100Y in
  let n4 := n / DI4Y in
  let n := n mod DI4Y in
  let n1 := n / 365 in
  let n := n mod 365 in
  let year := year + n100 * 100 + n4 * 4 + n1 in
  if (n1 =? 4) || (n100 =? 4) then (year - 1, 12, 31)
  else
    let leapyear := (n1 =? 3) && (negb (n4 =? 24) || (n100 =? 3)) in
    let month := Z.shiftr (n + 50) 5 in
    let preceding :=
      DAYS_BEFORE_MONTH month + (if (2 <? month) && leapyear then 1 else 0) in
    if n <? preceding then
      let month := month - 1 in
      let preceding :=
        preceding
        - (DAYS_IN_MONTH month + (if (month =? 2) && leapyear then 1 else 0)) in
      (year, month, n - preceding + 1)
    else (year, month, n - preceding + 1).

Definition MAXORDINAL : Z := 3652059.

End Calendar.

(** ** Python values: [datetime], [timedelta], exceptions *)

(** Microseconds in a day; [datetime] has microsecond resolution. *)
Definition US_PER_DAY : Z := 86400000000.

(** A [datetime] as the count of microseconds of its wall-clock fields since
    0001-01-01T00:00:00 (day [toordinal() - 1], plus the time of day), and its
    [tzinfo]: [None] for a naive datetime, the offset in microseconds of a
    fixed-offset [timezone] for an aware one. *)
Record datetime := { ticks : Z; tzinfo : option Z }.

(** [datetime.min <= d <= datetime.max]: ordinals 1 .. [_MAXORDINAL]. *)
Definition MAX_TICKS : Z := Calendar.MAXORDINAL * US_PER_DAY.

(** The calendar fields of an instant. *)
Definition ordinal_of_ticks (t : Z) : Z := t / US_PER_DAY + 1.
Definition year_of_ticks (t : Z) : Z := (Calendar.ord2ymd (ordinal_of_ticks t)).1.1.
Definition month_of_ticks (t : Z) : Z := (Calendar.ord2ymd (ordinal_of_ticks t)).1.2.

(** [d.year], [d.month] *)
Definition year (d : datetime) : Z := year_of_ticks (ticks d).
Definition month (d : datetime) : Z := month_of_ticks (ticks d).

(** [datetime(year, month, day, hour, minute, second)], naive. *)
Definition ticks_of_fields (y m d hh mm ss : Z) : Z :=
  (Calendar.ymd2ord y m d - 1) * US_PER_DAY + ((hh * 60 + mm) * 60 + ss) * 1000000.
Definition mk_datetime (y m d hh mm ss : Z) : datetime :=
  {| ticks := ticks_of_fields y m d hh mm ss; tzinfo := None |}.

(** [timedelta(weeks=w)], in microseconds. *)
Definition timedelta (weeks : Z) : Z := weeks * 7 * US_PER_DAY.

(** The exceptions that occur.  [ValueError] is the spec's [InvalidArgument];
    [LoaderError] is whatever the Raw Data Loader raises, passed through. *)
Inductive exn (E : Type) : Type :=
  | ValueError (msg : string)
  | TypeError (msg : string)
  | OverflowError (msg : string)
  | LoaderError (e : E).
Arguments ValueError {E} msg.
Arguments TypeError {E} msg.
Arguments OverflowError {E} msg.
Arguments LoaderError {E} e.

Inductive result (E A : Type) : Type :=
  | Ok (a : A)
  | Raise (e : exn E).
Arguments Ok {E A} a.
Arguments Raise {E A} e.

#[global] Instance result_ret {E} : MRet (result E) := fun _ a => Ok a.
#[global] Instance result_bind {E} : MBind (result E) := fun _ _ f r =>
  match r with
  | Ok a => f a
  | Raise e => Raise e
  end.

Section DatetimeOps.
Context {E : Type}.

(** [a >= b] on datetimes; mixing naive and aware raises [TypeError]. *)
Definition datetime_ge (a b : datetime) : result E bool :=
  match tzinfo a, tzinfo b with
  | None, None => Ok (ticks b <=? ticks a)
  | Some oa, Some ob => Ok (ticks b - ob <=? ticks a - oa)
  | _, _ => Raise (TypeError "can't compare offset-naive and offset-aware datetimes")
  end.

(** [d + delta] for a [timedelta] of [delta] microseconds; the result must
    have an ordinal in 1 .. [_MAXORDINAL], and keeps the [tzinfo]. *)
Definition datetime_add (d : datetime) (delta : Z) : result E datetime :=
  let t := ticks d + delta in
  if (0 <=? t) && (t <? MAX_TICKS)
  then Ok {| ticks := t; tzinfo := tzinfo d |}
  else Raise (OverflowError "date value out of range").

(** [d - delta] is [d + (-delta)]. *)
Definition datetime_sub (d : datetime) (delta : Z) : result E datetime :=
  datetime_add d (- delta).

End DatetimeOps.

(** ** The rides table *)

(** A row of the loader's table: the two columns the notebook uses.  The
    timestamps of the [pickup_datetime] column are naive instants on the same
    microsecond time line as [ticks]; the arithmetic on the column is that of
    the time line, without the bounds of its 64-bit representation. *)
Record ride := { pickup_datetime : Z; pickup_location_id : Z }.

#[global] Instance ride_eq_dec : EqDecision ride.
Proof. solve_decision. Defined.

(** Ascending order on [(pickup_location_id, pickup_datetime)]. *)
Definition ride_le (a b : ride) : Prop :=
  pickup_location_id a < pickup_location_id b \/
  (pickup_location_id a = pickup_location_id b /\
   pickup_datetime a <= pickup_datetime b).

#[global] Instance ride_le_dec : RelDecision ride_le.
Proof. intros a b. unfold ride_le. apply _. Defined.

Section Pandas.
Context {E : Type}.

(** [rides[rides.pickup_datetime >= d]]: comparing the naive column with an
    aware datetime raises [TypeError]. *)
Definition filter_ge (rides : list ride) (d : datetime) : result E (list ride) :=
  match tzinfo d with
  | None => Ok (filter (fun r => ticks d <= pickup_datetime r) rides)
  | Some _ => Raise (TypeError "Invalid comparison between dtype=datetime64[ns] and datetime")
  end.

(** [rides[rides.pickup_datetime < d]] *)
Definition filter_lt (rides : list ride) (d : datetime) : result E (list ride) :=
  match tzinfo d with
  | None => Ok (filter (fun r => pickup_datetime r < ticks d) rides)
  | Some _ => Raise (TypeError "Invalid comparison between dtype=datetime64[ns] and datetime")
  end.

End Pandas.

(** [rides['pickup_datetime'] += delta] *)
Definition add_to_pickup_datetime (delta : Z) (rides : list ride) : list ride :=
  (fun r => {| pickup_datetime := pickup_datetime r + delta;
               pickup_location_id := pickup_location_id r |}) <$> rides.

(** [rides.sort_values(by=['pickup_location_id', 'pickup_datetime'])] *)
Definition sort_values (rides : list ride) : list ride := merge_sort ride_le rides.

(** ** [fetch_batch_raw_data] *)

(** An argument of the function: a [str], a [datetime], or anything else. *)
Inductive pyobj : Type :=
  | PyStr (s : string)
  | PyDatetime (d : datetime)
  | PyOther.

(** The world the Raw Data Loader acts on, and the log of the calls made to
    it, each with its [year] and [months] arguments. *)
Record state (W : Type) := { world : W; calls : list (Z * list Z) }.
Arguments world {W} s.
Arguments calls {W} s.

Definition M (W E A : Type) : Type := state W -> result E A * state W.

#[global] Instance M_ret {W E} : MRet (M W E) := fun _ a s => (Ok a, s).
#[global] Instance M_bind {W E} : MBind (M W E) := fun _ _ f m s =>
  match m s with
  | (Ok a, s') => f a s'
  | (Raise e, s') => (Raise e, s')
  end.

(** A computation without effects, run inside [M]. *)
Definition lift {W E A} (r : result E A) : M W E A := fun s => (r, s).

Section Fetch.
Context {W E : Type}.

(** [datetime.fromisoformat], [None] where it raises [ValueError]. *)
Variable fromisoformat : string -> option datetime.

(** [load_and_process_taxi_data(year, months)] of [src.data_utils]: the
    Raw Data Loader, an external collaborator. *)
Variable load_and_process_taxi_data :
  Z -> list Z -> W -> (E + list ride) * W.

Definition call_loader (y : Z) (months : list Z) : M W E (list ride) :=
  fun s =>
    let '(r, w) := load_and_process_taxi_data y months (world s) in
    let s' := {| world := w; calls := calls s ++ [(y, months)] |} in
    match r with
    | inr rides => (Ok rides, s')
    | inl e => (Raise (LoaderError e), s')
    end.

(** [if isinstance(x, str): x = datetime.fromisoformat(x)] *)
Definition parse_if_str (x : pyobj) : result E pyobj :=
  match x with
  | PyStr s =>
      match fromisoformat s with
      | Some d => Ok (PyDatetime d)
      | None => Raise (ValueError "Invalid isoformat string")
      end
  | _ => Ok x
  end.

(** Lines 132-142: convert string inputs, then validate the dates. *)
Definition validate_dates (from_date to_date : pyobj)
  : result E (datetime * datetime) :=
  from_date ← parse_if_str from_date;
  to_date ← parse_if_str to_date;
  match from_date, to_date with
  | PyDatetime from_date, PyDatetime to_date =>
      ge ← datetime_ge from_date to_date;
      if (ge : bool)
      then Raise (ValueError "'from_date' must be earlier than 'to_date'.")
      else Ok (from_date, to_date)
  | _, _ =>
      Raise (ValueError "Both 'from_date' and 'to_date' must be datetime objects or valid ISO format strings.")
  end.

(** Lines 144-146: shift dates back by 52 weeks. *)
Definition historical_dates (from_date to_date : datetime)
  : result E (datetime * datetime) :=
  historical_from_date ← datetime_sub from_date (timedelta 52);
  historical_to_date ← datetime_sub to_date (timedelta 52);
  Ok (historical_from_date, historical_to_date).

(** Lines 148-158: load and filter data for the historical period. *)
Definition load_historical_rides (historical_from_date historical_to_date : datetime)
  : M W E (list ride) :=
  rides_from ← call_loader (year historical_from_date) [month historical_from_date];
  rides_from ← lift (filter_ge rides_from historical_from_date);
  if negb (month historical_to_date =? month historical_from_date) then
    rides_to ← call_loader (year historical_to_date) [month historical_to_date];
    rides_to ← lift (filter_lt rides_to historical_to_date);
    mret (rides_from ++ rides_to)
  else
    mret rides_from.

(** Notebook cell 7: simulate production data by sampling historical data
    from 52 weeks ago. *)
Definition fetch_batch_raw_data (from_date to_date : pyobj) : M W E (list ride) :=
  '(from_date, to_date) ← lift (validate_dates from_date to_date);
  '(historical_from_date, historical_to_date) ←
    lift (historical_dates from_date to_date);
  rides ← load_historical_rides historical_from_date historical_to_date;
  (* Shift the data forward by 52 weeks, then sort *)
  mret (sort_values (add_to_pickup_datetime (timedelta 52) rides)).

End Fetch.

(** ** The Hourly Aggregator, [transform_raw_data_into_ts_data] *)

Module Aggregator.

(** Modelled from the spec: a row of the Aggregated Series,
    [{ hour, location_id, count }] (section 3); the function that builds
    the series, [transform_raw_data_into_ts_data], is in [src.data_utils],
    which is not among the sources. *)
Record row := { hour : Z; location_id : Z; count : nat }.

#[global] Instance row_eq_dec : EqDecision row.
Proof. solve_decision. Defined.

(** Modelled from the spec: the step of the hour grid, one hour, in
    microseconds. *)
Definition HOUR : Z := 3600000000.

(** Modelled from the spec: step 1 of section 4.4, truncate a timestamp down
    to the start of its containing hour (floor, not round). *)
Definition floor_hour (t : Z) : Z := t / HOUR * HOUR.

(** Modelled from the spec: the Hourly Bucket Key of an event,
    [(hour, location_id)]. *)
Definition bucket (e : ride) : Z * Z :=
  (floor_hour (pickup_datetime e), pickup_location_id e).

(** Modelled from the spec: the minimum and the maximum of the event
    timestamps of a non-empty input (step 2). *)
Definition minimum (x : Z) (xs : list Z) : Z := foldr Z.min x xs.
Definition maximum (x : Z) (xs : list Z) : Z := foldr Z.max x xs.

(** Modelled from the spec: every hour in [[min_hour, max_hour]], inclusive,
    stepped by exactly one hour (step 4). *)
Definition hour_range (min_hour max_hour : Z) : list Z :=
  (fun i => min_hour + i * HOUR) <$> seqZ 0 ((max_hour - min_hour) / HOUR + 1).

(** Modelled from the spec: the distinct [location_id] values present in the
    input (step 3). *)
Definition distinct_locations (events : list ride) : list Z :=
  elements (list_to_set (pickup_location_id <$> events) : gset Z).

(** Modelled from the spec: count the events per bucket, in a mapping from
    the composite key to the count (step 5 and the design notes). *)
Definition count_events (events : list ride) : gmap (Z * Z) nat :=
  foldr (fun e m => <[bucket e := S (default 0%nat (m !! bucket e))]> m) ∅ events.

(** Modelled from the spec: the row emitted for a cell of the index, with
    the counted value, or 0 if the bucket had no events (step 6). *)
Definition make_row (counts : gmap (Z * Z) nat) (k : Z * Z) : row :=
  {| hour := k.1; location_id := k.2; count := default 0%nat (counts !! k) |}.

(** Modelled from the spec: the Hourly Bucket Key of a row. *)
Definition key (r : row) : Z * Z := (hour r, location_id r).

(** Modelled from the spec: ascending order on [(location_id, hour)]
    (step 7). *)
Definition row_le (a b : row) : Prop :=
  location_id a < location_id b \/
  (location_id a = location_id b /\ hour a <= hour b).

#[global] Instance row_le_dec : RelDecision row_le.
Proof. intros a b. unfold row_le. apply _. Defined.

(** Modelled from the spec: the algorithm of section 4.4 on the events of
    the input, the part of [transform_raw_data_into_ts_data] (of
    [src.data_utils], not in the notebook) after its input is validated. *)
Definition aggregate (events : list ride) : list row :=
  match events with
  | [] => []
  | e :: es =>
      let timestamps := pickup_datetime <$> es in
      let min_hour := floor_hour (minimum (pickup_datetime e) timestamps) in
      let max_hour := floor_hour (maximum (pickup_datetime e) timestamps) in
      let locations := distinct_locations events in
      let counts := count_events events in
      let index := h ← hour_range min_hour max_hour; l ← locations; [(h, l)] in
      merge_sort row_le (make_row counts <$> index)
  end.

(** Modelled from the spec: the events of an input table, read off its
    timestamp and location columns. *)
Definition events_of_columns (timestamps locations : list Z) : list ride :=
  zip_with Build_ride timestamps locations.

(** Modelled from the spec: [transform_raw_data_into_ts_data], the
    [aggregate] of section 4.4 with its failure semantics: [InvalidArgument]
    if the input table lacks the required timestamp or location fields. *)
Definition transform_raw_data_into_ts_data {E} (table : gmap string (list Z))
  : result E (list row) :=
  match table !! "pickup_datetime", table !! "pickup_location_id" with
  | Some timestamps, Some locations =>
      Ok (aggregate (events_of_columns timestamps locations))
  | _, _ => Raise (ValueError "missing required field")
  end.

(** Modelled from the spec: the input table that holds the given rides,
    columns by name. *)
Definition table_of_rides (rides : list ride) : gmap string (list Z) :=
  {[ "pickup_datetime" := pickup_datetime <$> rides;
     "pickup_location_id" := pickup_location_id <$> rides ]}.

End Aggregator.

(** ** Inputs for the examples *)

Module Examples.

(** The date-only fragment [YYYY-MM-DD] of [datetime.fromisoformat];
    midnight, naive. *)
Definition digit (c : ascii) : option Z :=
  let n := Z.of_nat (nat_of_ascii c) - 48 in
  if (0 <=? n) && (n <=? 9) then Some n else None.

Definition fromisoformat_date (s : string) : option datetime :=
  match list_ascii_of_string s with
  | [y1; y2; y3; y4; "-"; m1; m2; "-"; d1; d2]%char =>
      y1 ← digit y1; y2 ← digit y2; y3 ← digit y3; y4 ← digit y4;
      m1 ← digit m1; m2 ← digit m2; d1 ← digit d1; d2 ← digit d2;
      let y := ((y1 * 10 + y2) * 10 + y3) * 10 + y4 in
      let m := m1 * 10 + m2 in
      let d := d1 * 10 + d2 in
      if (1 <=? y) && (1 <=? m) && (m <=? 12)
         && (1 <=? d) && (d <=? Calendar.days_in_month y m)
      then Some (mk_datetime y m d 0 0 0)
      else None
  | _ => None
  end.

(** A Raw Data Loader over a fixed archive: the rides of the requested
    months of the requested year. *)
Definition archive_loader (archive : list ride)
  : Z -> list Z -> unit -> (Empty_set + list ride) * unit :=
  fun y months w =>
    (inr (filter (fun r => year_of_ticks (pickup_datetime r) = y /\
                           month_of_ticks (pickup_datetime r) ∈ months)
                 archive), w).

Definition archive : list ride :=
  [ {| pickup_datetime := ticks_of_fields 2024 2 5 10 0 0; pickup_location_id := 3 |};
    {| pickup_datetime := ticks_of_fields 2024 2 20 8 0 0; pickup_location_id := 7 |};
    {| pickup_datetime := ticks_of_fields 2024 2 20 8 0 0; pickup_location_id := 3 |};
    {| pickup_datetime := ticks_of_fields 2024 3 1 9 0 0; pickup_location_id := 3 |};
    {| pickup_datetime := ticks_of_fields 2024 3 20 12 0 0; pickup_location_id := 1 |} ].

Definition initial : state unit := {| world := tt; calls := [] |}.

(** The spec's example input of the aggregation. *)
Definition example_events : list ride :=
  [ {| pickup_datetime := ticks_of_fields 2025 2 4 6 8 40; pickup_location_id := 3 |};
    {| pickup_datetime := ticks_of_fields 2025 2 4 6 47 0; pickup_location_id := 3 |};
    {| pickup_datetime := ticks_of_fields 2025 2 4 7 15 0; pickup_location_id := 5 |} ].

(** Two events of the same timestamp and location. *)
Definition duplicate_events : list ride :=
  [ {| pickup_datetime := ticks_of_fields 2025 2 4 6 8 40; pickup_location_id := 3 |};
    {| pickup_datetime := ticks_of_fields 2025 2 4 6 8 40; pickup_location_id := 3 |} ].

(** The window of the notebook's own run (cells 2 to 8). *)
Definition fetch_data_from : datetime := mk_datetime 2025 2 4 6 0 0.
Definition fetch_data_to : datetime := mk_datetime 2025 3 4 6 0 0.

(** The rides that run returns over [archive]. *)
Definition fetched : list ride :=
  [ {| pickup_datetime := ticks_of_fields 2025 2 18 8 0 0; pickup_location_id := 3 |};
    {| pickup_datetime := ticks_of_fields 2025 2 28 9 0 0; pickup_location_id := 3 |};
    {| pickup_datetime := ticks_of_fields 2025 2 18 8 0 0; pickup_location_id := 7 |} ].

Definition fetched_state : state unit :=
  {| world := tt; calls := [(2024, [2]); (2024, [3])] |}.

End Examples.

(** ** More of [datetime] and of pandas timestamps *)

Definition US_PER_HOUR : Z := 3600000000.
Definition US_PER_MINUTE : Z := 60000000.
Definition US_PER_SECOND : Z := 1000000.

(** [d.day], [d.hour], [d.minute], [d.second], [d.microsecond] *)
Definition day (d : datetime) : Z :=
  (Calendar.ord2ymd (ordinal_of_ticks (ticks d))).2.
Definition hour (d : datetime) : Z := ticks d mod US_PER_DAY / US_PER_HOUR.
Definition minute (d : datetime) : Z := ticks d mod US_PER_HOUR / US_PER_MINUTE.
Definition second (d : datetime) : Z := ticks d mod US_PER_MINUTE / US_PER_SECOND.
Definition microsecond (d : datetime) : Z := ticks d mod US_PER_SECOND.

(** [d.weekday()]: [(self.toordinal() + 6) % 7], Monday is 0. *)
Definition weekday_of_ticks (t : Z) : Z := (ordinal_of_ticks t + 6) mod 7.
Definition weekday (d : datetime) : Z := weekday_of_ticks (ticks d).

(** [d.replace(minute=0, second=0, microsecond=0)]: the datetime built from
    the year, month, day, hour and tzinfo of [d]. *)
Definition replace_minute_second_microsecond_0 (d : datetime) : datetime :=
  {| ticks := ticks_of_fields (year d) (month d) (day d) (hour d) 0 0;
     tzinfo := tzinfo d |}.

(** [timedelta(days=n)], [timedelta(hours=n)], in microseconds. *)
Definition timedelta_days (days : Z) : Z := days * US_PER_DAY.
Definition timedelta_hours (hours : Z) : Z := hours * US_PER_HOUR.

(** [Timestamp.floor('h')] and [Timestamp.ceil('h')] *)
Definition floor_h (d : datetime) : datetime :=
  {| ticks := ticks d / US_PER_HOUR * US_PER_HOUR; tzinfo := tzinfo d |}.
Definition ceil_h (d : datetime) : datetime :=
  {| ticks := - (- ticks d / US_PER_HOUR) * US_PER_HOUR; tzinfo := tzinfo d |}.

(** [datetime.now(timezone.utc)] for a clock that reads [t]: aware, offset 0;
    [datetime.utcnow()]: the same fields, naive. *)
Definition now_utc (t : Z) : datetime := {| ticks := t; tzinfo := Some 0 |}.
Definition utcnow (t : Z) : datetime := {| ticks := t; tzinfo := None |}.

(** ** The backfill notebook around [fetch_batch_raw_data] *)

(** A pandas [Timestamp] counts the nanoseconds since 1970-01-01 in 64 bits,
    signed.  In whole microseconds its values run from [TIMESTAMP_MIN],
    1677-09-21 00:12:43.145225, to [TIMESTAMP_MAX],
    2262-04-11 23:47:16.854775; an operation whose result would lie outside
    raises. *)
Definition EPOCH_TICKS : Z := ticks_of_fields 1970 1 1 0 0 0.
Definition TIMESTAMP_MIN : Z := EPOCH_TICKS - 9223372036854775.
Definition TIMESTAMP_MAX : Z := EPOCH_TICKS + 9223372036854775.
Definition timestamp_in_bounds (t : Z) : bool :=
  (TIMESTAMP_MIN <=? t) && (t <=? TIMESTAMP_MAX).

(** Cells 2 and 4: [current_date = pd.to_datetime(datetime.utcnow()).floor('h')],
    [fetch_data_to = current_date],
    [fetch_data_from = current_date - timedelta(days=28)]; the clock reads
    [t].  The three values are Timestamps, naive as [utcnow()] is: the
    result is [None] where the conversion, the floor or the subtraction
    leaves the bounds of a Timestamp and raises. *)
Definition fetch_data_window (t : Z) : option (datetime * datetime) :=
  if timestamp_in_bounds t then
    let current_date := floor_h (utcnow t) in
    if timestamp_in_bounds (ticks current_date) then
      let fetch_data_to := current_date in
      let fetch_data_from :=
        {| ticks := ticks current_date - timedelta_days 28;
           tzinfo := tzinfo current_date |} in
      if timestamp_in_bounds (ticks fetch_data_from)
      then Some (fetch_data_from, fetch_data_to)
      else None
    else None
  else None.

(** ** The predictions notebook *)

(** A row of the predictions table; [pickup_hour] is an instant of the
    [datetime64[us, Etc/UTC]] column, in microseconds on the UTC time line. *)
Record prediction (D : Type) := {
  prediction_location_id : Z;
  predicted_demand : D;
  pickup_hour : Z
}.
Arguments prediction_location_id {D} p.
Arguments predicted_demand {D} p.
Arguments pickup_hour {D} p.

(** [column == d] on a timezone-aware column: the same instant; against a
    naive datetime the comparison is false everywhere. *)
Definition same_instant (column_value : Z) (d : datetime) : Prop :=
  match tzinfo d with
  | Some offset => column_value = ticks d - offset
  | None => False
  end.

#[global] Instance same_instant_dec (c : Z) (d : datetime) : Decision (same_instant c d).
Proof. unfold same_instant. destruct (tzinfo d); apply _. Defined.

Section NextHour.
Context {W E D : Type}.

(** [get_feature_store()] and [fs.get_feature_group(...)], the external
    feature store; what it raises is passed through as [LoaderError]. *)
Variable get_feature_group : W -> (E + unit) * W.

(** [get_current_utc_hour_ceiled()], the clock reading [t]. *)
Definition get_current_utc_hour_ceiled (t : Z) : result E datetime :=
  let current := now_utc t in
  current ←
    (if (0 <? minute current) || (0 <? second current)
     then datetime_add current (timedelta_hours 1)
     else Ok current);
  Ok (replace_minute_second_microsecond_0 current).

(** [next_hour = (now + timedelta(hours=1)).replace(minute=0, second=0,
    microsecond=0)] with [now = datetime.now(timezone.utc)]. *)
Definition next_hour (t : Z) : result E datetime :=
  let now := now_utc t in
  shifted ← datetime_add now (timedelta_hours 1);
  Ok (replace_minute_second_microsecond_0 shifted).

(** [fetch_next_hour_predictions()] as last defined (cell 18), over the
    global table [df], the clock reading [t]; the three lines it prints (the
    clock, the hour, the number of rows) are not part of what it returns. *)
Definition fetch_next_hour_predictions (t : Z) (df : list (prediction D)) (w : W)
  : result E (list (prediction D)) * W :=
  match next_hour t with
  | Raise e => (Raise e, w)
  | Ok next_hour =>
      let '(fg, w') := get_feature_group w in
      match fg with
      | inl e => (Raise (LoaderError e), w')
      | inr _ =>
          (Ok (filter (fun p => same_instant (pickup_hour p) next_hour) df), w')
      end
  end.

End NextHour.

(** ** The feature-store cell of the backfill notebook (cell 14) *)

(** The feature store's side and the lines printed so far. *)
Record cell_state (W : Type) := { store : W; stdout : list string }.
Arguments store {W} _.
Arguments stdout {W} _.

Definition Cell (W E A : Type) : Type := cell_state W -> result E A * cell_state W.

#[global] Instance Cell_ret {W E} : MRet (Cell W E) := fun _ a s => (Ok a, s).
#[global] Instance Cell_bind {W E} : MBind (Cell W E) := fun _ _ f m s =>
  match m s with
  | (Ok a, s') => f a s'
  | (Raise e, s') => (Raise e, s')
  end.

(** [print(line)] *)
Definition print {W E} (line : string) : Cell W E unit :=
  fun s => (Ok tt, {| store := store s; stdout := stdout s ++ [line] |}).

(** [raise e] *)
Definition raise {W E A} (e : exn E) : Cell W E A := fun s => (Raise e, s).

(** A call to the feature store's client.  [E] stands for whatever the
    client raises, of any class, a [ValueError] of its own included; it is
    passed through under the tag [LoaderError], which keeps it apart from
    the exceptions that the cell raises itself. *)
Definition external {W E} (call : W -> (E + unit) * W) : Cell W E unit :=
  fun s =>
    let '(r, w) := call (store s) in
    let s' := {| store := w; stdout := stdout s |} in
    match r with
    | inr _ => (Ok tt, s')
    | inl e => (Raise (LoaderError e), s')
    end.

(** [str(v)] for the result of [os.getenv]: the value, or [None]. *)
Definition str_of_getenv (v : option string) : string := default "None" v.

(** The truth value of the result of [os.getenv]: [not v] holds for [None]
    and for the empty string. *)
Definition truthy (v : option string) : option string :=
  match v with
  | Some s => if decide (s = "") then None else Some s
  | None => None
  end.

(** The four lines that cell 14 prints first. *)
Definition debug_lines (env : gmap string string) : list string :=
  [ "HOPSWORKS_PROJECT_NAME: " +:+ str_of_getenv (env !! "HOPSWORKS_PROJECT_NAME");
    "HOPSWORKS_API_KEY: " +:+ str_of_getenv (env !! "HOPSWORKS_API_KEY");
    "FEATURE_GROUP_NAME: " +:+ str_of_getenv (env !! "FEATURE_GROUP_NAME");
    "FEATURE_GROUP_VERSION: " +:+ str_of_getenv (env !! "FEATURE_GROUP_VERSION") ].

(** The part of cell 14 after the validation. *)
Definition connect_validated {W E}
    (hopsworks_login : string -> string -> W -> (E + unit) * W)
    (get_feature_store : W -> (E + unit) * W)
    (get_feature_group : string -> Z -> W -> (E + unit) * W)
    (project_name api_key feature_group_name : string) (feature_group_version : Z)
  : Cell W E unit :=
  external (hopsworks_login project_name api_key);;
  print ("Successfully connected to Hopsworks project: " +:+ project_name);;
  external get_feature_store;;
  external (get_feature_group feature_group_name feature_group_version);;
  print ("Successfully connected to Feature Group: " +:+ feature_group_name
         +:+ " (version " +:+ pretty feature_group_version +:+ ")").

Section FeatureStoreCell.
Context {W E : Type}.

(** [int(s)], [None] where it raises [ValueError]. *)
Variable int_of_str : string -> option Z.

(** [hopsworks.login(project=..., api_key_value=...)],
    [project.get_feature_store()] and
    [feature_store.get_feature_group(name=..., version=...)]. *)
Variable hopsworks_login : string -> string -> W -> (E + unit) * W.
Variable get_feature_store : W -> (E + unit) * W.
Variable get_feature_group : string -> Z -> W -> (E + unit) * W.

(** Cell 14, over the environment [env] as [load_dotenv] leaves it. *)
Definition connect_to_feature_group (env : gmap string string) : Cell W E unit :=
  let project_name := env !! "HOPSWORKS_PROJECT_NAME" in
  let api_key := env !! "HOPSWORKS_API_KEY" in
  let feature_group_name := env !! "FEATURE_GROUP_NAME" in
  let feature_group_version := env !! "FEATURE_GROUP_VERSION" in
  print ("HOPSWORKS_PROJECT_NAME: " +:+ str_of_getenv project_name);;
  print ("HOPSWORKS_API_KEY: " +:+ str_of_getenv api_key);;
  print ("FEATURE_GROUP_NAME: " +:+ str_of_getenv feature_group_name);;
  print ("FEATURE_GROUP_VERSION: " +:+ str_of_getenv feature_group_version);;
  match truthy project_name, truthy api_key, truthy feature_group_name,
        truthy feature_group_version with
  | Some project_name, Some api_key, Some feature_group_name,
    Some feature_group_version =>
      match int_of_str feature_group_version with
      | None => raise (ValueError "invalid literal for int() with base 10")
      | Some feature_group_version =>
          connect_validated hopsworks_login get_feature_store get_feature_group
            project_name api_key feature_group_name feature_group_version
      end
  | _, _, _, _ =>
      raise (ValueError "One or more required environment variables are missing.")
  end.

End FeatureStoreCell.

(** ** Inputs for the examples of the notebooks' other cells *)

Module MoreExamples.

(** The clock of the predictions notebook's run, 2025-03-04 15:16:12.495014,
    and a clock half a second past a full hour. *)
Definition notebook_clock : Z := ticks_of_fields 2025 3 4 15 16 12 + 495014.
Definition just_past_the_hour : Z := ticks_of_fields 2025 3 4 15 0 0 + 500000.

(** The clock of a backfill run, 2025-03-04 06:30:00. *)
Definition backfill_clock : Z := ticks_of_fields 2025 3 4 6 30 0.

(** A predictions table with rows for 15:00, 16:00 and 17:00. *)
Definition predictions : list (prediction Z) :=
  [ {| prediction_location_id := 252; predicted_demand := 0;
       pickup_hour := ticks_of_fields 2025 3 4 16 0 0 |};
    {| prediction_location_id := 224; predicted_demand := 1;
       pickup_hour := ticks_of_fields 2025 3 4 15 0 0 |};
    {| prediction_location_id := 224; predicted_demand := 2;
       pickup_hour := ticks_of_fields 2025 3 4 16 0 0 |};
    {| prediction_location_id := 117; predicted_demand := 0;
       pickup_hour := ticks_of_fields 2025 3 4 17 0 0 |} ].

(** A feature store that answers, and a loader that fails. *)
Definition store_ok : unit -> (Empty_set + unit) * unit := fun w => (inr tt, w).
Definition failing_loader : Z -> list Z -> unit -> (unit + list ride) * unit :=
  fun _ _ w => (inl tt, w).

(** An aware date, 2025-02-04 06:00 at offset 0. *)
Definition aware_from : datetime :=
  {| ticks := ticks_of_fields 2025 2 4 6 0 0; tzinfo := Some 0 |}.

(** Dates of the year 1. *)
Definition early_from : datetime := mk_datetime 1 6 1 0 0 0.
Definition early_to : datetime := mk_datetime 1 7 1 0 0 0.

(** An environment without [FEATURE_GROUP_VERSION]. *)
Definition env_without_version : gmap string string :=
  {[ "HOPSWORKS_PROJECT_NAME" := "taxi";
     "HOPSWORKS_API_KEY" := "secret";
     "FEATURE_GROUP_NAME" := "time_series_hourly_feature_group" ]}.

(** Decimal literals without sign, a fragment of [int]. *)
Definition int_of_digits (s : string) : option Z :=
  match list_ascii_of_string s with
  | [] => None
  | cs => foldl (fun acc c => n ← acc; d ← Examples.digit c; Some (n * 10 + d))
            (Some 0) cs
  end.

Definition login_ok : string -> string -> unit -> (Empty_set + unit) * unit :=
  fun _ _ w => (inr tt, w).
Definition feature_group_ok : string -> Z -> unit -> (Empty_set + unit) * unit :=
  fun _ _ w => (inr tt, w).

Definition cell_initial : cell_state unit := {| store := tt; stdout := [] |}.

End MoreExamples.

(** * Properties *)

Example ord2ymd_max : Calendar.ord2ymd Calendar.MAXORDINAL = (9999, 12, 31).
Proof. reflexivity. Qed.

Example ord2ymd_2024_leap_day :
  Calendar.ord2ymd (Calendar.ymd2ord 2024 2 29) = (2024, 2, 29).
Proof. reflexivity. Qed.

(** ** The calendar *)

Module CalendarFacts.
Import Calendar.

Lemma is_leap_true (y : Z) :
  is_leap y = true <-> (y mod 4 = 0 /\ (y mod 100 <> 0 \/ y mod 400 = 0)).
Proof.
  unfold is_leap.
  rewrite andb_true_iff, orb_true_iff, negb_true_iff, !Z.eqb_eq, Z.eqb_neq.
  tauto.
Qed.

Lemma is_leap_false (y : Z) :
  is_leap y = false <-> (y mod 4 <> 0 \/ (y mod 100 = 0 /\ y mod 400 <> 0)).
Proof.
  unfold is_leap.
  rewrite andb_false_iff, orb_false_iff, negb_false_iff, Z.eqb_eq, !Z.eqb_neq.
  tauto.
Qed.

Lemma days_before_year_succ (y : Z) :
  days_before_year (y + 1) =
  days_before_year y + 365 + (if is_leap y then 1 else 0).
Proof.
  destruct (is_leap y) eqn:E.
  - apply is_leap_true in E. unfold days_before_year.
    Z.div_mod_to_equations. lia.
  - apply is_leap_false in E. unfold days_before_year.
    Z.div_mod_to_equations. lia.
Qed.


(** Evaluate the table lookups and tests on literals. *)
Ltac eval_closed :=
  repeat match goal with
    | |- context [DAYS_IN_MONTH ?x] =>
        let v := eval vm_compute in (DAYS_IN_MONTH x) in
        progress change (DAYS_IN_MONTH x) with v
    | |- context [DAYS_BEFORE_MONTH ?x] =>
        let v := eval vm_compute in (DAYS_BEFORE_MONTH x) in
        progress change (DAYS_BEFORE_MONTH x) with v
    | |- context [if ?c then 1 else 0] =>
        let v := eval vm_compute in (if c then 1 else 0) in
        progress change (if c then 1 else 0) with v
    end.

Lemma month_cases (m : Z) :
  1 <= m <= 12 ->
  m = 1 \/ m = 2 \/ m = 3 \/ m = 4 \/ m = 5 \/ m = 6 \/ m = 7 \/ m = 8 \/
  m = 9 \/ m = 10 \/ m = 11 \/ m = 12.
Proof. lia. Qed.

(** The day-of-year part of [_ord2ymd]: from the 0-based day [n] of a year
    to its month and day. *)
Lemma ord2ymd_month (leap : bool) (n : Z) :
  0 <= n < 365 + (if leap then 1 else 0) ->
  let month := Z.shiftr (n + 50) 5 in
  let preceding :=
    DAYS_BEFORE_MONTH month + (if (2 <? month) && leap then 1 else 0) in
  let '(m, d) :=
    if n <? preceding then
      let month' := month - 1 in
      (month', n - (preceding - (DAYS_IN_MONTH month' + (if (month' =? 2) && leap then 1 else 0))) + 1)
    else (month, n - preceding + 1) in
  1 <= m <= 12 /\
  1 <= d <= DAYS_IN_MONTH m + (if (m =? 2) && leap then 1 else 0) /\
  DAYS_BEFORE_MONTH m + (if (2 <? m) && leap then 1 else 0) + d = n + 1.
Proof.
  intros Hn. cbv zeta. rewrite Z.shiftr_div_pow2 by lia.
  change (2 ^ 5) with 32.
  assert (Hm : 1 <= (n + 50) / 32 <= 12).
  { destruct leap; Z.div_mod_to_equations; lia. }
  assert (Hq : 32 * ((n + 50) / 32) <= n + 50 < 32 * ((n + 50) / 32) + 32).
  { Z.div_mod_to_equations; lia. }
  destruct (month_cases _ Hm) as [E|[E|[E|[E|[E|[E|[E|[E|[E|[E|[E|E]]]]]]]]]]];
    rewrite E in *; destruct leap;
    match goal with |- context [n <? ?b] => destruct (Z.ltb_spec n b) as [H|H] end;
    revert Hn; try revert H; eval_closed; lia.
Qed.


(** [_ord2ymd] inverts [_ymd2ord] and returns a date of the calendar. *)
Lemma ord2ymd_spec (n : Z) :
  let '(y, m, d) := ord2ymd n in
  1 <= m <= 12 /\ 1 <= d <= days_in_month y m /\ ymd2ord y m d = n.
Proof.
  unfold ord2ymd, DI400Y, DI100Y, DI4Y.
  set (N := n - 1).
  set (q400 := N / 146097). set (r400 := N mod 146097).
  set (n100 := r400 / 36524). set (r100 := r400 mod 36524).
  set (n4 := r100 / 1461). set (r4 := r100 mod 1461).
  set (n1 := r4 / 365). set (r1 := r4 mod 365).
  assert (H400 : N = 146097 * q400 + r400 /\ 0 <= r400 < 146097)
    by (subst q400 r400; Z.div_mod_to_equations; lia).
  assert (H100 : r400 = 36524 * n100 + r100 /\ 0 <= r100 < 36524)
    by (subst n100 r100; Z.div_mod_to_equations; lia).
  assert (H4 : r100 = 1461 * n4 + r4 /\ 0 <= r4 < 1461)
    by (subst n4 r4; Z.div_mod_to_equations; lia).
  assert (H1 : r4 = 365 * n1 + r1 /\ 0 <= r1 < 365)
    by (subst n1 r1; Z.div_mod_to_equations; lia).
  clearbody q400 r400 n100 r100 n4 r4 n1 r1. subst N.
  set (year := q400 * 400 + 1 + n100 * 100 + n4 * 4 + n1).
  destruct ((n1 =? 4) || (n100 =? 4)) eqn:Hend.
  - assert (Hleap : is_leap (year - 1) = true).
    { apply is_leap_true. subst year.
      apply orb_true_iff in Hend as [?%Z.eqb_eq | ?%Z.eqb_eq];
        Z.div_mod_to_equations; lia. }
    unfold days_in_month, ymd2ord, days_before_month. rewrite Hleap.
    change (12 =? 2) with false. change (2 <? 12) with true. cbn [andb].
    change (DAYS_IN_MONTH 12) with 31. change (DAYS_BEFORE_MONTH 12) with 334.
    split; [lia|]. split; [lia|].
    unfold days_before_year. subst year.
    apply orb_true_iff in Hend as [?%Z.eqb_eq | ?%Z.eqb_eq];
      Z.div_mod_to_equations; lia.
  - apply orb_false_iff in Hend as [Hn1%Z.eqb_neq Hn100%Z.eqb_neq].
    set (leapyear := (n1 =? 3) && (negb (n4 =? 24) || (n100 =? 3))).
    assert (Hleap : is_leap year = leapyear).
    { subst leapyear. destruct ((n1 =? 3) && _) eqn:E.
      - apply is_leap_true. subst year.
        apply andb_true_iff in E as [?%Z.eqb_eq E].
        apply orb_true_iff in E as [?%negb_true_iff%Z.eqb_neq | ?%Z.eqb_eq];
          Z.div_mod_to_equations; lia.
      - apply is_leap_false. subst year.
        apply andb_false_iff in E as [?%Z.eqb_neq | E].
        + Z.div_mod_to_equations; lia.
        + apply orb_false_iff in E as [?%negb_false_iff%Z.eqb_eq ?%Z.eqb_neq].
          Z.div_mod_to_equations; lia. }
    assert (Hr : 0 <= r1 < 365 + (if leapyear then 1 else 0))
      by (destruct leapyear; lia).
    pose proof (ord2ymd_month leapyear r1 Hr) as Hm. cbv zeta in Hm.
    assert (Hdby : days_before_year year = n - 1 - r1).
    { unfold days_before_year. subst year. Z.div_mod_to_equations; lia. }
    assert (Hdim : forall m, 1 <= m <= 12 ->
              days_in_month year m =
              DAYS_IN_MONTH m + (if (m =? 2) && leapyear then 1 else 0)).
    { intros m Hm12. unfold days_in_month. rewrite Hleap.
      destruct (Z.eqb_spec m 2) as [->|]; destruct leapyear; cbn [andb];
        try reflexivity; lia. }
    destruct (r1 <? _); destruct Hm as (Hm12 & ? & ?);
      unfold ymd2ord, days_before_month; rewrite Hleap, Hdby, (Hdim _ Hm12);
      (split; [done|]); (split; [done|lia]).
Qed.


Lemma days_before_year_mono (y1 y2 : Z) :
  y1 <= y2 -> days_before_year y1 <= days_before_year y2.
Proof. intros Hy. unfold days_before_year. Z.div_mod_to_equations. lia. Qed.

(** A date of month [m] comes before the first day of any later month of
    the same year, and before the end of the year. *)
Lemma days_before_month_next (y m d m' : Z) :
  1 <= m <= 12 -> 1 <= d <= days_in_month y m -> m < m' <= 12 ->
  days_before_month y m + d <= days_before_month y m'.
Proof.
  intros Hm Hd Hm'. revert Hd. unfold days_in_month, days_before_month.
  destruct (month_cases m Hm) as [E|[E|[E|[E|[E|[E|[E|[E|[E|[E|[E|E]]]]]]]]]]];
    subst m;
    (assert (Hm12 : 1 <= m' <= 12) by lia);
    destruct (month_cases m' Hm12) as [E|[E|[E|[E|[E|[E|[E|[E|[E|[E|[E|E]]]]]]]]]]];
    subst m'; try lia; destruct (is_leap y); cbn; lia.
Qed.

Lemma days_before_month_bounds (y m d : Z) :
  1 <= m <= 12 -> 1 <= d <= days_in_month y m ->
  1 <= days_before_month y m + d <= 365 + (if is_leap y then 1 else 0).
Proof.
  intros Hm. unfold days_in_month, days_before_month.
  destruct (month_cases m Hm) as [E|[E|[E|[E|[E|[E|[E|[E|[E|[E|[E|E]]]]]]]]]]];
    subst m; destruct (is_leap y); cbn; lia.
Qed.

(** [_ymd2ord] is strictly increasing from one month to a later one. *)
Lemma ymd2ord_lt (y1 m1 d1 y2 m2 d2 : Z) :
  1 <= m1 <= 12 -> 1 <= d1 <= days_in_month y1 m1 ->
  1 <= m2 <= 12 -> 1 <= d2 <= days_in_month y2 m2 ->
  y1 < y2 \/ (y1 = y2 /\ m1 < m2) ->
  ymd2ord y1 m1 d1 < ymd2ord y2 m2 d2.
Proof.
  intros Hm1 Hd1 Hm2 Hd2 [Hy | [-> Hm]]; unfold ymd2ord.
  - pose proof (days_before_month_bounds y1 m1 d1 Hm1 Hd1).
    pose proof (days_before_month_bounds y2 m2 d2 Hm2 Hd2).
    pose proof (days_before_year_succ y1).
    pose proof (days_before_year_mono (y1 + 1) y2).
    lia.
  - pose proof (days_before_month_next y2 m1 d1 m2 Hm1 Hd1). lia.
Qed.

(** The year and month of an ordinal never decrease as the ordinal
    grows. *)
Lemma ord2ymd_mono (n1 n2 : Z) :
  n1 <= n2 ->
  (ord2ymd n1).1.1 < (ord2ymd n2).1.1 \/
  ((ord2ymd n1).1.1 = (ord2ymd n2).1.1 /\ (ord2ymd n1).1.2 <= (ord2ymd n2).1.2).
Proof.
  intros Hn.
  pose proof (ord2ymd_spec n1) as H1. pose proof (ord2ymd_spec n2) as H2.
  destruct (ord2ymd n1) as [[y1 m1] d1], (ord2ymd n2) as [[y2 m2] d2].
  cbn [fst snd]. destruct H1 as (Hm1 & Hd1 & <-), H2 as (Hm2 & Hd2 & <-).
  destruct (decide (y2 < y1 \/ (y2 = y1 /\ m2 < m1))) as [Hlt|Hge]; [|lia].
  pose proof (ymd2ord_lt y2 m2 d2 y1 m1 d1 Hm2 Hd2 Hm1 Hd1 Hlt). lia.
Qed.

End CalendarFacts.

(** ** The Hourly Aggregator *)

(** The example of the spec (section 8): three events, two hours, two
    locations. *)
Example aggregate_spec_example :
  Aggregator.aggregate Examples.example_events
  = [ Aggregator.Build_row (ticks_of_fields 2025 2 4 6 0 0) 3 2;
      Aggregator.Build_row (ticks_of_fields 2025 2 4 7 0 0) 3 0;
      Aggregator.Build_row (ticks_of_fields 2025 2 4 6 0 0) 5 0;
      Aggregator.Build_row (ticks_of_fields 2025 2 4 7 0 0) 5 1 ].
Proof. vm_compute. reflexivity. Qed.

Module AggregatorFacts.
Import Aggregator Examples.

#[global] Instance row_le_total : Total row_le.
Proof. intros a b. unfold row_le. lia. Qed.

#[global] Instance row_le_trans : Transitive row_le.
Proof. intros a b c. unfold row_le. lia. Qed.

Lemma HOUR_pos : 0 < HOUR.
Proof. reflexivity. Qed.

Lemma floor_hour_le (t : Z) : floor_hour t <= t < floor_hour t + HOUR.
Proof. unfold floor_hour. pose proof HOUR_pos. Z.div_mod_to_equations. lia. Qed.

Lemma floor_hour_mono (a b : Z) : a <= b -> floor_hour a <= floor_hour b.
Proof.
  intros Hab. unfold floor_hour. pose proof HOUR_pos.
  apply Z.mul_le_mono_nonneg_r; [lia|]. apply Z.div_le_mono; lia.
Qed.

Lemma minimum_le (x : Z) (xs : list Z) :
  minimum x xs <= x /\ Forall (fun y => minimum x xs <= y) xs.
Proof.
  induction xs as [|y ys [IH1 IH2]]; [split; [cbn; lia|constructor]|].
  change (minimum x (y :: ys)) with (Z.min y (minimum x ys)).
  split; [lia|]. constructor; [lia|].
  eapply Forall_impl; [exact IH2|]. cbn. lia.
Qed.

Lemma maximum_ge (x : Z) (xs : list Z) :
  x <= maximum x xs /\ Forall (fun y => y <= maximum x xs) xs.
Proof.
  induction xs as [|y ys [IH1 IH2]]; [split; [cbn; lia|constructor]|].
  change (maximum x (y :: ys)) with (Z.max y (maximum x ys)).
  split; [lia|]. constructor; [lia|].
  eapply Forall_impl; [exact IH2|]. cbn. lia.
Qed.

(** The hours of the range: [min_hour], [min_hour + HOUR], ... up to
    [max_hour]. *)
Lemma elem_of_hour_range (a b h : Z) :
  h ∈ hour_range (floor_hour a) (floor_hour b) <->
  exists i : Z, 0 <= i /\ h = floor_hour a + i * HOUR /\ h <= floor_hour b.
Proof.
  unfold hour_range. rewrite list_elem_of_fmap.
  assert (Hd : (floor_hour b - floor_hour a) / HOUR = b / HOUR - a / HOUR).
  { unfold floor_hour. rewrite <- Z.mul_sub_distr_r.
    apply Z.div_mul. pose proof HOUR_pos. lia. }
  rewrite Hd. pose proof HOUR_pos. split.
  - intros (i & -> & Hi%elem_of_seqZ). exists i.
    split; [lia|]. split; [done|]. unfold floor_hour. nia.
  - intros (i & Hi & -> & Hle). exists i. split; [done|].
    apply elem_of_seqZ. unfold floor_hour in Hle. nia.
Qed.

Lemma NoDup_hour_range (a b : Z) : NoDup (hour_range a b).
Proof.
  unfold hour_range. apply NoDup_fmap_2_strong; [|apply NoDup_seqZ].
  intros i j _ _. pose proof HOUR_pos. nia.
Qed.

Lemma elem_of_distinct_locations (events : list ride) (l : Z) :
  l ∈ distinct_locations events <->
  exists e, e ∈ events /\ pickup_location_id e = l.
Proof.
  unfold distinct_locations.
  rewrite elem_of_elements, elem_of_list_to_set, list_elem_of_fmap.
  split; intros (e & H1 & H2); exists e; done.
Qed.

Lemma NoDup_distinct_locations (events : list ride) :
  NoDup (distinct_locations events).
Proof. unfold distinct_locations. apply NoDup_elements. Qed.

(** The index of step 4: the cross-product, without repetition. *)
Lemma elem_of_index (hours locations : list Z) (k : Z * Z) :
  k ∈ (h ← hours; l ← locations; [(h, l)]) <-> k.1 ∈ hours /\ k.2 ∈ locations.
Proof.
  rewrite list_elem_of_bind. setoid_rewrite list_elem_of_bind.
  setoid_rewrite list_elem_of_singleton. destruct k as [h l]; cbn. split.
  - intros (h' & (l' & [= -> ->] & Hl) & Hh). done.
  - intros [Hh Hl]. exists h. split; [|done]. exists l. done.
Qed.

Lemma NoDup_index (hours locations : list Z) :
  NoDup hours -> NoDup locations ->
  NoDup (h ← hours; l ← locations; [(h, l)]).
Proof.
  intros Hh Hl. apply NoDup_bind; [| |done].
  - intros h1 h2 k _ _.
    rewrite !list_elem_of_bind. setoid_rewrite list_elem_of_singleton.
    intros (l1 & -> & _) (l2 & [= -> _] & _). done.
  - intros h _. apply NoDup_bind; [| |done].
    + intros l1 l2 k _ _. rewrite !list_elem_of_singleton.
      intros -> [= ->]. done.
    + intros. apply NoDup_singleton.
Qed.

(** The mapping of step 5 holds, for every key, the number of events of
    that bucket. *)
Lemma count_events_lookup (events : list ride) (k : Z * Z) :
  default 0%nat (count_events events !! k) =
  length (filter (fun e => bucket e = k) events).
Proof.
  induction events as [|e es IH];
    [change (count_events []) with (∅ : gmap (Z * Z) nat); by rewrite lookup_empty|].
  change (count_events (e :: es))
    with (<[bucket e := S (default 0%nat (count_events es !! bucket e))]>
            (count_events es)).
  rewrite filter_cons, lookup_insert.
  destruct (decide (bucket e = k)) as [->|Hne]; cbn; [by rewrite IH|done].
Qed.


Lemma minimum_elem_of (x : Z) (xs : list Z) : minimum x xs ∈ x :: xs.
Proof.
  induction xs as [|y ys IH]; [apply list_elem_of_here|].
  change (minimum x (y :: ys)) with (Z.min y (minimum x ys)).
  destruct (Z.min_spec y (minimum x ys)) as [[_ ->]|[_ ->]].
  - apply list_elem_of_further, list_elem_of_here.
  - apply elem_of_cons in IH as [->|IH]; [apply list_elem_of_here|].
    by do 2 apply list_elem_of_further.
Qed.

Lemma maximum_elem_of (x : Z) (xs : list Z) : maximum x xs ∈ x :: xs.
Proof.
  induction xs as [|y ys IH]; [apply list_elem_of_here|].
  change (maximum x (y :: ys)) with (Z.max y (maximum x ys)).
  destruct (Z.max_spec y (maximum x ys)) as [[_ ->]|[_ ->]].
  - apply elem_of_cons in IH as [->|IH]; [apply list_elem_of_here|].
    by do 2 apply list_elem_of_further.
  - apply list_elem_of_further, list_elem_of_here.
Qed.

(** The extreme timestamps of a non-empty input. *)
Lemma extreme_timestamps (e : ride) (es : list ride) :
  let lo := minimum (pickup_datetime e) (pickup_datetime <$> es) in
  let hi := maximum (pickup_datetime e) (pickup_datetime <$> es) in
  lo ∈ pickup_datetime <$> e :: es /\ hi ∈ pickup_datetime <$> e :: es /\
  forall e', e' ∈ e :: es -> lo <= pickup_datetime e' <= hi.
Proof.
  cbv zeta. split; [apply minimum_elem_of|]. split; [apply maximum_elem_of|].
  intros e' He'.
  destruct (minimum_le (pickup_datetime e) (pickup_datetime <$> es)) as [Hl1 Hl2].
  destruct (maximum_ge (pickup_datetime e) (pickup_datetime <$> es)) as [Hh1 Hh2].
  apply elem_of_cons in He' as [->|He']; [lia|].
  rewrite Forall_forall in Hl2, Hh2.
  assert (pickup_datetime e' ∈ pickup_datetime <$> es) as Hin
    by (apply list_elem_of_fmap; eauto).
  split; [by apply Hl2 | by apply Hh2].
Qed.

Lemma key_make_row (counts : gmap (Z * Z) nat) (index : list (Z * Z)) :
  key <$> (make_row counts <$> index) = index.
Proof.
  rewrite <- list_fmap_compose. rewrite <- (list_fmap_id index) at 2.
  apply list_fmap_ext. intros _ [h l] _. reflexivity.
Qed.

Lemma aggregate_cons (e : ride) (es : list ride) :
  aggregate (e :: es) =
  merge_sort row_le
    (make_row (count_events (e :: es)) <$>
       (h ← hour_range
              (floor_hour (minimum (pickup_datetime e) (pickup_datetime <$> es)))
              (floor_hour (maximum (pickup_datetime e) (pickup_datetime <$> es)));
        l ← distinct_locations (e :: es); [(h, l)])).
Proof. reflexivity. Qed.

(** Every event falls in a cell of the index. *)
Lemma bucket_in_index (e : ride) (es : list ride) (e' : ride) :
  e' ∈ e :: es ->
  bucket e' ∈
    (h ← hour_range
           (floor_hour (minimum (pickup_datetime e) (pickup_datetime <$> es)))
           (floor_hour (maximum (pickup_datetime e) (pickup_datetime <$> es)));
     l ← distinct_locations (e :: es); [(h, l)]).
Proof.
  intros He'. apply elem_of_index. cbn [bucket fst snd]. split.
  - destruct (extreme_timestamps e es) as (_ & _ & Hb).
    specialize (Hb _ He') as [Hlo Hhi].
    apply elem_of_hour_range.
    set (lo := minimum _ _) in *. set (hi := maximum _ _) in *.
    exists (pickup_datetime e' / HOUR - lo / HOUR).
    pose proof HOUR_pos.
    split; [|split].
    + apply Z.le_0_sub, Z.div_le_mono; lia.
    + unfold floor_hour. lia.
    + by apply floor_hour_mono.
  - apply elem_of_distinct_locations. eauto.
Qed.

Lemma sum_list_with_add {A} (f g : A -> nat) (l : list A) :
  sum_list_with (fun x => f x + g x)%nat l =
  (sum_list_with f l + sum_list_with g l)%nat.
Proof. induction l as [|x l IH]; cbn; lia. Qed.

Lemma sum_list_with_ext {A} (f g : A -> nat) (l : list A) :
  (forall x, f x = g x) -> sum_list_with f l = sum_list_with g l.
Proof. intros Hfg. induction l as [|x l IH]; cbn; [done|]. by rewrite Hfg, IH. Qed.

Lemma sum_list_with_fmap {A B} (f : B -> nat) (g : A -> B) (l : list A) :
  sum_list_with f (g <$> l) = sum_list_with (fun x => f (g x)) l.
Proof. induction l as [|x l IH]; cbn; [done|]. by rewrite IH. Qed.

Lemma filter_none {A} (P : A -> Prop) `{forall x, Decision (P x)} (l : list A) :
  (forall x, x ∈ l -> ~ P x) -> filter P l = [].
Proof.
  induction l as [|x l IH]; intros Hl; [done|].
  rewrite filter_cons. destruct (decide (P x)) as [HP|_].
  - destruct (Hl x); [apply list_elem_of_here | done].
  - apply IH. intros y Hy. apply Hl. by apply list_elem_of_further.
Qed.

Lemma sum_indicator (cells : list (Z * Z)) (k : Z * Z) :
  NoDup cells -> k ∈ cells ->
  sum_list_with (fun c => if decide (k = c) then 1 else 0)%nat cells = 1%nat.
Proof.
  induction 1 as [|c cells Hc Hnd IH]; [by intros ?%elem_of_nil|].
  intros Hk. cbn. destruct (decide (k = c)) as [->|Hne].
  - assert (sum_list_with (fun c' => if decide (c = c') then 1 else 0)%nat cells = 0%nat)
      as ->; [|done].
    clear IH Hk Hnd. induction cells as [|c' cells IH]; [done|].
    cbn. apply not_elem_of_cons in Hc as [Hne Hc].
    destruct (decide (c = c')); [done|]. by apply IH.
  - apply elem_of_cons in Hk as [->|Hk]; [done|]. by rewrite IH.
Qed.

(** Conservation: over an index without repetition that covers the
    buckets of all events, the bucket sizes add up to the number of
    events. *)
Lemma sum_bucket_sizes (cells : list (Z * Z)) (events : list ride) :
  NoDup cells ->
  (forall e, e ∈ events -> bucket e ∈ cells) ->
  sum_list_with (fun c => length (filter (fun e => bucket e = c) events)) cells
  = length events.
Proof.
  intros Hnd. induction events as [|e es IH]; intros Hin.
  - clear. induction cells as [|c cells IH]; [done|]. exact IH.
  - rewrite (sum_list_with_ext _
      (fun c => (if decide (bucket e = c) then 1 else 0)
                + length (filter (fun e' => bucket e' = c) es))%nat).
    2:{ intros c. rewrite filter_cons. by destruct (decide (bucket e = c)). }
    rewrite sum_list_with_add, sum_indicator, IH; [done| |done|].
    + intros e' He'. apply Hin. by apply list_elem_of_further.
    + apply Hin, list_elem_of_here.
Qed.


(** Each row of the series holds the size of its bucket. *)
Lemma aggregate_count (events : list ride) (r : row) :
  r ∈ aggregate events ->
  count r = length (filter (fun e' => bucket e' = key r) events).
Proof.
  destruct events as [|e es]; [by intros ?%elem_of_nil|].
  rewrite aggregate_cons, merge_sort_Permutation.
  intros ([h l] & -> & _)%list_elem_of_fmap. apply count_events_lookup.
Qed.

(** C1. On a table with both fields and at least one event,
    [transform_raw_data_into_ts_data] returns a series that is sorted
    ascending by [(location_id, hour)], has exactly one row for each pair of
    an hour of the grid [min_hour, min_hour + 1h, ..., max_hour] and a
    location of the input ([min_hour] and [max_hour] being the floors of the
    least and the greatest event timestamp), and gives each pair the number
    of events of its bucket, so 0 for a pair without events. *)
Theorem transform_dense_and_sorted (E : Type) (table : gmap string (list Z))
    (timestamps locations : list Z) (e : ride) (es : list ride) :
  table !! "pickup_datetime" = Some timestamps ->
  table !! "pickup_location_id" = Some locations ->
  events_of_columns timestamps locations = e :: es ->
  exists (out : list row) (lo hi : Z),
    transform_raw_data_into_ts_data (E:=E) table = Ok out /\
    (lo ∈ pickup_datetime <$> e :: es /\ hi ∈ pickup_datetime <$> e :: es /\
     forall e', e' ∈ e :: es -> lo <= pickup_datetime e' <= hi) /\
    StronglySorted row_le out /\
    NoDup (key <$> out) /\
    (forall h l,
       (h, l) ∈ key <$> out <->
       (exists i : Z, 0 <= i /\ h = floor_hour lo + i * HOUR /\ h <= floor_hour hi) /\
       (exists e', e' ∈ e :: es /\ pickup_location_id e' = l)) /\
    (forall r, r ∈ out ->
       count r = length (filter (fun e' => bucket e' = key r) (e :: es))) /\
    (forall r, r ∈ out ->
       (forall e', e' ∈ e :: es -> bucket e' <> key r) -> count r = 0%nat).
Proof.
  intros Hts Hloc Hev.
  unfold transform_raw_data_into_ts_data. rewrite Hts, Hloc, Hev.
  set (lo := minimum (pickup_datetime e) (pickup_datetime <$> es)).
  set (hi := maximum (pickup_datetime e) (pickup_datetime <$> es)).
  exists (aggregate (e :: es)), lo, hi.
  split; [done|]. split; [apply extreme_timestamps|].
  rewrite aggregate_cons. fold lo hi.
  set (index := _ ≫= _). set (counts := count_events _).
  pose proof (merge_sort_Permutation row_le (make_row counts <$> index)) as Hperm.
  assert (Hkeys : key <$> merge_sort row_le (make_row counts <$> index) ≡ₚ index).
  { rewrite Hperm. by rewrite key_make_row. }
  assert (Hcount : forall r, r ∈ merge_sort row_le (make_row counts <$> index) ->
            count r = length (filter (fun e' => bucket e' = key r) (e :: es))).
  { intros r Hr. apply aggregate_count. by rewrite aggregate_cons. }
  split; [apply StronglySorted_merge_sort; apply _|].
  split.
  { rewrite Hkeys. apply NoDup_index;
      [apply NoDup_hour_range | apply NoDup_distinct_locations]. }
  split.
  { intros h l. rewrite Hkeys. subst index. rewrite elem_of_index. cbn [fst snd].
    by rewrite elem_of_hour_range, elem_of_distinct_locations. }
  split; [exact Hcount|].
  intros r Hr Hnone. rewrite (Hcount r Hr).
  by rewrite filter_none.
Qed.

Lemma transform_dense_and_sorted_witness :
  exists (out : list row) (lo hi : Z),
    transform_raw_data_into_ts_data (E:=Empty_set) (table_of_rides example_events)
    = Ok out /\
    (lo ∈ pickup_datetime <$> example_events /\
     hi ∈ pickup_datetime <$> example_events /\
     forall e', e' ∈ example_events -> lo <= pickup_datetime e' <= hi) /\
    StronglySorted row_le out /\
    NoDup (key <$> out) /\
    (forall h l,
       (h, l) ∈ key <$> out <->
       (exists i : Z, 0 <= i /\ h = floor_hour lo + i * HOUR /\ h <= floor_hour hi) /\
       (exists e', e' ∈ example_events /\ pickup_location_id e' = l)) /\
    (forall r, r ∈ out ->
       count r = length (filter (fun e' => bucket e' = key r) example_events)) /\
    (forall r, r ∈ out ->
       (forall e', e' ∈ example_events -> bucket e' <> key r) -> count r = 0%nat).
Proof.
  apply (transform_dense_and_sorted Empty_set (table_of_rides example_events)
           (pickup_datetime <$> example_events)
           (pickup_location_id <$> example_events)); reflexivity.
Defined.

(** C2. Conservation: on every table with both fields, duplicates
    included, the counts of the returned rows add up to the number of input
    events; each row counts every event of its bucket once, so two events of
    the same timestamp and location contribute 1 each. *)
Theorem transform_conserves_events (E : Type) (table : gmap string (list Z))
    (timestamps locations : list Z) :
  table !! "pickup_datetime" = Some timestamps ->
  table !! "pickup_location_id" = Some locations ->
  exists out : list row,
    transform_raw_data_into_ts_data (E:=E) table = Ok out /\
    sum_list_with count out = length (events_of_columns timestamps locations) /\
    forall r, r ∈ out ->
      count r = length (filter (fun e' => bucket e' = key r)
                          (events_of_columns timestamps locations)).
Proof.
  intros Hts Hloc.
  unfold transform_raw_data_into_ts_data. rewrite Hts, Hloc.
  eexists. split; [done|]. split; [|apply aggregate_count].
  destruct (events_of_columns timestamps locations) as [|e es]; [done|].
  rewrite aggregate_cons.
  set (index := _ ≫= _). set (counts := count_events _).
  rewrite (merge_sort_Permutation row_le (make_row counts <$> index)).
  rewrite sum_list_with_fmap.
  rewrite (sum_list_with_ext _
    (fun c => length (filter (fun e' => bucket e' = c) (e :: es)))).
  2:{ intros c. apply count_events_lookup. }
  apply sum_bucket_sizes.
  - apply NoDup_index; [apply NoDup_hour_range | apply NoDup_distinct_locations].
  - intros e' He'. by apply bucket_in_index.
Qed.

Lemma transform_conserves_events_witness :
  exists out : list row,
    transform_raw_data_into_ts_data (E:=Empty_set) (table_of_rides duplicate_events)
    = Ok out /\
    sum_list_with count out = 2%nat /\
    forall r, r ∈ out ->
      count r = length (filter (fun e' => bucket e' = key r) duplicate_events).
Proof.
  change 2%nat with (length (events_of_columns
                               (pickup_datetime <$> duplicate_events)
                               (pickup_location_id <$> duplicate_events))).
  change duplicate_events with (events_of_columns
                                  (pickup_datetime <$> duplicate_events)
                                  (pickup_location_id <$> duplicate_events)) at 4.
  apply (transform_conserves_events Empty_set (table_of_rides duplicate_events)
           (pickup_datetime <$> duplicate_events)
           (pickup_location_id <$> duplicate_events)); reflexivity.
Defined.

(** A non-empty input gives a non-empty series. *)
Lemma aggregate_nil (events : list ride) : aggregate events = [] <-> events = [].
Proof.
  split; [|by intros ->]. destruct events as [|e es]; [done|].
  intros Hnil. exfalso.
  pose proof (bucket_in_index e es e (list_elem_of_here _ _)) as Hin.
  rewrite aggregate_cons in Hnil.
  pose proof (merge_sort_Permutation row_le
    (make_row (count_events (e :: es)) <$>
       (h ← hour_range
              (floor_hour (minimum (pickup_datetime e) (pickup_datetime <$> es)))
              (floor_hour (maximum (pickup_datetime e) (pickup_datetime <$> es)));
        l ← distinct_locations (e :: es); [(h, l)]))) as Hperm.
  rewrite Hnil in Hperm. apply Permutation_nil_l in Hperm.
  symmetry in Hperm. apply fmap_nil_inv in Hperm.
  rewrite Hperm in Hin. by apply elem_of_nil in Hin.
Qed.

(** C8. On a table with both fields and no event the result is the empty
    series, not an error, and the empty series comes from the empty input
    only; [transform_raw_data_into_ts_data] succeeds on every table with both
    fields, fails on every table that lacks the timestamp or the location
    field, and its only error is [InvalidArgument] ([ValueError]). *)
Theorem transform_empty_and_failure (E : Type) (table : gmap string (list Z)) :
  (forall timestamps locations,
     table !! "pickup_datetime" = Some timestamps ->
     table !! "pickup_location_id" = Some locations ->
     events_of_columns timestamps locations = [] ->
     transform_raw_data_into_ts_data (E:=E) table = Ok []) /\
  (forall timestamps locations,
     table !! "pickup_datetime" = Some timestamps ->
     table !! "pickup_location_id" = Some locations ->
     exists out,
       transform_raw_data_into_ts_data (E:=E) table = Ok out /\
       (out = [] <-> events_of_columns timestamps locations = [])) /\
  (table !! "pickup_datetime" = None \/ table !! "pickup_location_id" = None ->
   exists msg,
     transform_raw_data_into_ts_data (E:=E) table = Raise (ValueError msg)) /\
  (forall e, transform_raw_data_into_ts_data (E:=E) table = Raise e ->
     (exists msg, e = ValueError msg) /\
     (table !! "pickup_datetime" = None \/ table !! "pickup_location_id" = None)).
Proof.
  unfold transform_raw_data_into_ts_data. split; [|split; [|split]].
  - intros ts locs -> -> ->. reflexivity.
  - intros ts locs -> ->. eexists. split; [done|]. apply aggregate_nil.
  - intros [->| ->]; [eauto|]. destruct (table !! "pickup_datetime"); eauto.
  - intros e. destruct (table !! "pickup_datetime");
      destruct (table !! "pickup_location_id"); intros [= <-]; eauto.
Qed.

(** A table that holds the timestamp column only. *)
Lemma transform_empty_and_failure_witness :
  transform_raw_data_into_ts_data (E:=Empty_set) (table_of_rides []) = Ok [] /\
  (exists msg,
     transform_raw_data_into_ts_data (E:=Empty_set)
       ({[ "pickup_datetime" := [1; 2] ]} : gmap string (list Z))
     = Raise (ValueError msg)).
Proof.
  split.
  - apply (proj1 (transform_empty_and_failure Empty_set (table_of_rides [])) [] []);
      reflexivity.
  - apply (proj1 (proj2 (proj2 (transform_empty_and_failure Empty_set
                                  {[ "pickup_datetime" := [1; 2] ]})))).
    right. reflexivity.
Defined.

End AggregatorFacts.

(** ** [fetch_batch_raw_data] *)

Example fromisoformat_date_example :
  Examples.fromisoformat_date "2025-03-04" = Some (mk_datetime 2025 3 4 0 0 0).
Proof. reflexivity. Qed.

Example fromisoformat_date_rejects :
  Examples.fromisoformat_date "2025-02-30" = None /\
  Examples.fromisoformat_date "tomorrow" = None.
Proof. split; reflexivity. Qed.

#[global] Instance ride_le_total : Total ride_le.
Proof. intros a b. unfold ride_le. lia. Qed.

#[global] Instance ride_le_trans : Transitive ride_le.
Proof. intros a b c. unfold ride_le. lia. Qed.

Section DatetimeFacts.
Context {E : Type}.

Lemma datetime_add_Ok (d d' : datetime) (delta : Z) :
  datetime_add (E:=E) d delta = Ok d' <->
  (0 <= ticks d + delta < MAX_TICKS /\
   d' = {| ticks := ticks d + delta; tzinfo := tzinfo d |}).
Proof.
  unfold datetime_add.
  destruct (Z.leb_spec 0 (ticks d + delta)), (Z.ltb_spec (ticks d + delta) MAX_TICKS);
    cbn; split; try (intros [= <-]; split; [lia|done]); try (intros [? ->]; done);
    try (intros [= ]); try (intros [? _]; lia).
Qed.

Lemma datetime_sub_Ok (d d' : datetime) (delta : Z) :
  datetime_sub (E:=E) d delta = Ok d' <->
  (0 <= ticks d - delta < MAX_TICKS /\
   d' = {| ticks := ticks d - delta; tzinfo := tzinfo d |}).
Proof. unfold datetime_sub. rewrite datetime_add_Ok. by rewrite Z.add_opp_r. Qed.

Lemma datetime_ge_false (a b : datetime) :
  datetime_ge (E:=E) a b = Ok false ->
  (tzinfo a = None /\ tzinfo b = None /\ ticks a < ticks b) \/
  (exists oa ob, tzinfo a = Some oa /\ tzinfo b = Some ob /\
                 ticks a - oa < ticks b - ob).
Proof.
  unfold datetime_ge. destruct (tzinfo a) as [oa|], (tzinfo b) as [ob|];
    intros [= H]; apply Z.leb_gt in H; eauto 10.
Qed.

End DatetimeFacts.

(** Rides of a month that differs from the month of an earlier instant [a]
    are not before [a]. *)
Lemma later_month_not_before (a b x : Z) :
  a <= b ->
  month_of_ticks b <> month_of_ticks a ->
  year_of_ticks x = year_of_ticks b ->
  month_of_ticks x = month_of_ticks b ->
  a <= x.
Proof.
  intros Hab Hm Hy Hmx. destruct (decide (a <= x)) as [|Hlt]; [done|].
  exfalso. unfold year_of_ticks, month_of_ticks in *.
  assert (Hxa : ordinal_of_ticks x <= ordinal_of_ticks a).
  { unfold ordinal_of_ticks. apply Z.add_le_mono_r, Z.div_le_mono; [done|lia]. }
  assert (Hab' : ordinal_of_ticks a <= ordinal_of_ticks b).
  { unfold ordinal_of_ticks. apply Z.add_le_mono_r, Z.div_le_mono; [done|lia]. }
  pose proof (CalendarFacts.ord2ymd_mono _ _ Hxa).
  pose proof (CalendarFacts.ord2ymd_mono _ _ Hab').
  lia.
Qed.

Lemma add_to_pickup_datetime_elem_of (delta : Z) (rides : list ride) (r : ride) :
  r ∈ add_to_pickup_datetime delta rides <->
  exists r0, r0 ∈ rides /\
    pickup_datetime r = pickup_datetime r0 + delta /\
    pickup_location_id r = pickup_location_id r0.
Proof.
  unfold add_to_pickup_datetime. rewrite list_elem_of_fmap. split.
  - intros (r0 & -> & Hr0). by exists r0.
  - intros (r0 & Hr0 & Ht & Hl). exists r0. split; [|done].
    destruct r as [t l]. cbn in *. by subst.
Qed.

Lemma sort_values_Permutation (rides : list ride) : sort_values rides ≡ₚ rides.
Proof. apply merge_sort_Permutation. Qed.

Lemma sort_values_sorted (rides : list ride) : StronglySorted ride_le (sort_values rides).
Proof. apply StronglySorted_merge_sort; apply _. Qed.

Section FetchFacts.
Context {W E : Type}.
Variable fromisoformat : string -> option datetime.
Variable loader : Z -> list Z -> W -> (E + list ride) * W.

#[local] Abbreviation fetch := (fetch_batch_raw_data fromisoformat loader).
#[local] Abbreviation validate := (validate_dates (E:=E) fromisoformat).
#[local] Abbreviation parse := (parse_if_str (E:=E) fromisoformat).
#[local] Abbreviation load_rides := (load_historical_rides loader).

(** The function body, phase by phase. *)
Lemma fetch_batch_raw_data_unfold (from_date to_date : pyobj) (s : state W) :
  fetch from_date to_date s =
  match validate from_date to_date with
  | Raise e => (Raise e, s)
  | Ok (f, t) =>
      match historical_dates (E:=E) f t with
      | Raise e => (Raise e, s)
      | Ok (hf, ht) =>
          match load_rides hf ht s with
          | (Ok rides, s') =>
              (Ok (sort_values (add_to_pickup_datetime (timedelta 52) rides)), s')
          | (Raise e, s') => (Raise e, s')
          end
      end
  end.
Proof.
  unfold fetch_batch_raw_data, mbind, M_bind, lift.
  destruct (validate from_date to_date) as [[f t]|e]; [|done].
  destruct (historical_dates f t) as [[hf ht]|e]; [|done].
  destruct (load_rides hf ht s) as [[rides|e] s']; done.
Qed.

Lemma parse_if_str_Raise (x : pyobj) (e : exn E) :
  parse x = Raise e ->
  e = ValueError "Invalid isoformat string" /\
  exists str, x = PyStr str /\ fromisoformat str = None.
Proof.
  destruct x as [str|d|]; cbn; try done.
  destruct (fromisoformat str) eqn:Hp; intros [= <-]. eauto.
Qed.

Lemma validate_dates_Ok (from_date to_date : pyobj) (f t : datetime) :
  validate from_date to_date = Ok (f, t) <->
  parse from_date = Ok (PyDatetime f) /\ parse to_date = Ok (PyDatetime t) /\
  datetime_ge (E:=E) f t = Ok false.
Proof.
  unfold validate_dates, mbind, result_bind.
  destruct (parse from_date) as [[?|f'|]|?];
    destruct (parse to_date) as [[?|t'|]|?];
    try (split; [intros [=] | intros (H1 & H2 & H3); discriminate]).
  destruct (datetime_ge f' t') as [[]|?] eqn:Hge;
    (split; [intros [= <- <-] | intros ([= <-] & [= <-] & H3)]); try done;
    congruence.
Qed.

Lemma validate_dates_Raise (from_date to_date : pyobj) (e : exn E) :
  validate from_date to_date = Raise e ->
  (exists msg, e = ValueError msg) \/ (exists msg, e = TypeError msg).
Proof.
  unfold validate_dates, mbind, result_bind.
  destruct (parse from_date) as [x|e1] eqn:H1.
  2:{ intros [= <-]. apply parse_if_str_Raise in H1 as [-> _]. eauto. }
  destruct (parse to_date) as [y|e2] eqn:H2.
  2:{ intros [= <-]. apply parse_if_str_Raise in H2 as [-> _]. eauto. }
  destruct x as [?|f|], y as [?|t|]; try (intros [= <-]; eauto).
  unfold datetime_ge. destruct (tzinfo f), (tzinfo t);
    try (intros [= <-]; eauto); destruct (_ <=? _); intros [= <-]; eauto.
Qed.

Lemma historical_dates_Ok (f t hf ht : datetime) :
  historical_dates (E:=E) f t = Ok (hf, ht) <->
  (0 <= ticks f - timedelta 52 < MAX_TICKS /\
   0 <= ticks t - timedelta 52 < MAX_TICKS /\
   hf = {| ticks := ticks f - timedelta 52; tzinfo := tzinfo f |} /\
   ht = {| ticks := ticks t - timedelta 52; tzinfo := tzinfo t |}).
Proof.
  unfold historical_dates, mbind, result_bind.
  destruct (datetime_sub f (timedelta 52)) as [hf'|] eqn:Hf.
  2:{ split; [done|]. intros (? & _ & -> & _).
      assert (datetime_sub (E:=E) f (timedelta 52) = Ok
                {| ticks := ticks f - timedelta 52; tzinfo := tzinfo f |}) as Hc
        by by apply datetime_sub_Ok.
      congruence. }
  destruct (datetime_sub t (timedelta 52)) as [ht'|] eqn:Ht.
  2:{ split; [done|]. intros (_ & ? & _ & ->).
      assert (datetime_sub (E:=E) t (timedelta 52) = Ok
                {| ticks := ticks t - timedelta 52; tzinfo := tzinfo t |}) as Hc
        by by apply datetime_sub_Ok.
      congruence. }
  apply datetime_sub_Ok in Hf as [? ->], Ht as [? ->].
  split; [intros [= <- <-]; done | intros (_ & _ & -> & ->); done].
Qed.

Lemma historical_dates_Raise (f t : datetime) (e : exn E) :
  historical_dates (E:=E) f t = Raise e -> exists msg, e = OverflowError msg.
Proof.
  unfold historical_dates, datetime_sub, datetime_add, mbind, result_bind.
  repeat (destruct (_ && _); [|intros [= <-]; eauto]). done.
Qed.


Lemma load_historical_rides_Ok (hf ht : datetime) (s s' : state W)
    (hist : list ride) :
  load_rides hf ht s = (Ok hist, s') ->
  tzinfo hf = None /\
  exists rides_from w1,
    loader (year hf) [month hf] (world s) = (inr rides_from, w1) /\
    ((month ht = month hf /\
      hist = filter (fun r => ticks hf <= pickup_datetime r) rides_from /\
      s' = {| world := w1; calls := calls s ++ [(year hf, [month hf])] |})
     \/
     (month ht <> month hf /\ tzinfo ht = None /\
      exists rides_to w2,
        loader (year ht) [month ht] w1 = (inr rides_to, w2) /\
        hist = filter (fun r => ticks hf <= pickup_datetime r) rides_from
               ++ filter (fun r => pickup_datetime r < ticks ht) rides_to /\
        s' = {| world := w2;
                calls := (calls s ++ [(year hf, [month hf])])
                         ++ [(year ht, [month ht])] |})).
Proof.
  unfold load_historical_rides, mbind, M_bind, mret, M_ret, lift, call_loader,
    filter_ge, filter_lt.
  intros Hrun.
  destruct (loader (year hf) [month hf] (world s)) as [[e|rides_from] w1] eqn:H1;
    [done|].
  destruct (tzinfo hf); [done|]. split; [done|]. exists rides_from, w1.
  split; [done|].
  destruct (Z.eqb_spec (month ht) (month hf)) as [Hm|Hm]; cbn [negb] in Hrun.
  - injection Hrun as <- <-. by left.
  - cbn [world calls] in Hrun.
    destruct (loader (year ht) [month ht] w1) as [[e|rides_to] w2] eqn:H2;
      [done|].
    destruct (tzinfo ht); [done|]. injection Hrun as <- <-. right.
    split; [done|]. split; [done|]. by exists rides_to, w2.
Qed.

Lemma load_historical_rides_Raise (hf ht : datetime) (s s' : state W)
    (e : exn E) :
  load_rides hf ht s = (Raise e, s') ->
  (exists msg, e = TypeError msg) \/ (exists x, e = LoaderError x).
Proof.
  unfold load_historical_rides, mbind, M_bind, mret, M_ret, lift, call_loader,
    filter_ge, filter_lt.
  destruct (loader (year hf) [month hf] (world s)) as [[x|rides_from] w1];
    [intros [= <- _]; eauto|].
  destruct (tzinfo hf); [intros [= <- _]; eauto|].
  destruct (negb _); [|done]. cbn [world calls].
  destruct (loader (year ht) [month ht] w1) as [[x|rides_to] w2];
    [intros [= <- _]; eauto|].
  destruct (tzinfo ht); [intros [= <- _]; eauto|done].
Qed.

(** A successful run, phase by phase. *)
Lemma fetch_batch_raw_data_Ok (from_date to_date : pyobj) (s s' : state W)
    (out : list ride) :
  fetch from_date to_date s = (Ok out, s') <->
  exists f t hf ht hist,
    validate from_date to_date = Ok (f, t) /\
    historical_dates (E:=E) f t = Ok (hf, ht) /\
    load_rides hf ht s = (Ok hist, s') /\
    out = sort_values (add_to_pickup_datetime (timedelta 52) hist).
Proof.
  rewrite fetch_batch_raw_data_unfold. split.
  - destruct (validate from_date to_date) as [[f t]|]; [|done].
    destruct (historical_dates f t) as [[hf ht]|] eqn:Hh; [|done].
    destruct (load_rides hf ht s) as [[hist|] s1] eqn:Hl; [|done].
    intros [= <- <-]. by exists f, t, hf, ht, hist.
  - intros (f & t & hf & ht & hist & Hv & Hh & Hl & ->).
    by rewrite Hv, Hh, Hl.
Qed.


(** The run succeeds on naive, ordered dates whose shifted bounds are
    representable, when the loader does. *)
Lemma fetch_batch_raw_data_succeeds (from_date to_date : pyobj) (f t : datetime)
    (s : state W) :
  parse from_date = Ok (PyDatetime f) ->
  parse to_date = Ok (PyDatetime t) ->
  tzinfo f = None -> tzinfo t = None ->
  ticks f < ticks t ->
  0 <= ticks f - timedelta 52 -> ticks t - timedelta 52 < MAX_TICKS ->
  (forall y months w, exists rides w', loader y months w = (inr rides, w')) ->
  exists out s', fetch from_date to_date s = (Ok out, s').
Proof.
  intros Hpf Hpt Hf Ht Hlt Hlo Hhi Hloader.
  assert (Hv : validate from_date to_date = Ok (f, t)).
  { apply validate_dates_Ok. do 2 (split; [done|]).
    unfold datetime_ge. rewrite Hf, Ht. f_equal. by apply Z.leb_gt. }
  set (hf := {| ticks := ticks f - timedelta 52; tzinfo := tzinfo f |}).
  set (ht := {| ticks := ticks t - timedelta 52; tzinfo := tzinfo t |}).
  assert (Hh : historical_dates (E:=E) f t = Ok (hf, ht)).
  { apply historical_dates_Ok. repeat split; lia. }
  rewrite fetch_batch_raw_data_unfold, Hv, Hh.
  unfold load_historical_rides, mbind, M_bind, mret, M_ret, lift, call_loader,
    filter_ge, filter_lt.
  destruct (Hloader (year hf) [month hf] (world s)) as (rides_from & w1 & ->).
  subst hf ht. cbn [tzinfo world calls]. rewrite Hf.
  destruct (negb _); [|eauto].
  match goal with
  | |- context [loader ?y ?m ?w] =>
      destruct (Hloader y m w) as (rides_to & w2 & ->)
  end.
  cbn [tzinfo]. rewrite Ht. eauto.
Qed.

(** C9. Validation comes first: whenever converting or validating the
    dates fails, the run ends with that error in the state it started in, so
    no call to the loader has been made; and a run that ends in a
    [ValueError] has failed in validation, before any loader call. *)
Theorem validation_precedes_loading (from_date to_date : pyobj) (s : state W) :
  (forall e, validate from_date to_date = Raise e ->
     fetch from_date to_date s = (Raise e, s)) /\
  (forall msg s', fetch from_date to_date s = (Raise (ValueError msg), s') ->
     validate from_date to_date = Raise (ValueError msg) /\
     s' = s /\ calls s' = calls s).
Proof.
  rewrite fetch_batch_raw_data_unfold. split.
  - by intros e ->.
  - intros msg s'.
    destruct (validate from_date to_date) as [[f t]|e]; [|by intros [= -> ->]].
    destruct (historical_dates f t) as [[hf ht]|e] eqn:Hh.
    + destruct (load_rides hf ht s) as [[hist|e] s1] eqn:Hl; [done|].
      intros [= -> ->].
      apply load_historical_rides_Raise in Hl as [[? [=]]|[? [=]]].
    + intros [= -> ->]. apply historical_dates_Raise in Hh as [? [=]].
Qed.

(** C5. Dates that are not in order, [from_date >= to_date] after parsing,
    end the run with a [ValueError], and so does a date string that does not
    parse; no data is returned and the state is as it was. *)
Theorem fetch_rejects_invalid_dates (from_date to_date : pyobj) (s : state W) :
  (forall f t,
     parse from_date = Ok (PyDatetime f) ->
     parse to_date = Ok (PyDatetime t) ->
     datetime_ge (E:=E) f t = Ok true ->
     exists msg, fetch from_date to_date s = (Raise (ValueError msg), s)) /\
  (forall str, from_date = PyStr str -> fromisoformat str = None ->
     exists msg, fetch from_date to_date s = (Raise (ValueError msg), s)) /\
  (forall str, to_date = PyStr str -> fromisoformat str = None ->
     exists msg, fetch from_date to_date s = (Raise (ValueError msg), s)).
Proof.
  rewrite fetch_batch_raw_data_unfold.
  unfold validate_dates, mbind, result_bind. split; [|split].
  - intros f t -> -> ->. eauto.
  - intros str -> Hnone. cbn. rewrite Hnone. eauto.
  - intros str -> Hnone. cbn. rewrite Hnone.
    destruct (parse from_date) as [x|e] eqn:Hp; [eauto|].
    apply parse_if_str_Raise in Hp as [-> _]. eauto.
Qed.


(** C6. In every successful run the returned table is the loaded
    historical table with 52 * 7 days added to each timestamp, no row
    dropped and none added, sorted ascending by
    [(pickup_location_id, pickup_datetime)]. *)
Theorem fetch_relabels_and_sorts (from_date to_date : pyobj) (s s' : state W)
    (out : list ride) :
  fetch from_date to_date s = (Ok out, s') ->
  exists f t hf ht hist,
    validate from_date to_date = Ok (f, t) /\
    historical_dates (E:=E) f t = Ok (hf, ht) /\
    load_rides hf ht s = (Ok hist, s') /\
    out ≡ₚ add_to_pickup_datetime (52 * 7 * US_PER_DAY) hist /\
    length out = length hist /\
    (forall r, r ∈ out <->
       exists r0, r0 ∈ hist /\
         pickup_datetime r = pickup_datetime r0 + 52 * 7 * US_PER_DAY /\
         pickup_location_id r = pickup_location_id r0) /\
    StronglySorted ride_le out.
Proof.
  intros (f & t & hf & ht & hist & Hv & Hh & Hl & ->)%fetch_batch_raw_data_Ok.
  exists f, t, hf, ht, hist. do 3 (split; [done|]).
  change (timedelta 52) with (52 * 7 * US_PER_DAY).
  pose proof (sort_values_Permutation
                (add_to_pickup_datetime (52 * 7 * US_PER_DAY) hist)) as Hperm.
  split; [done|]. split.
  { rewrite Hperm. unfold add_to_pickup_datetime. apply length_fmap. }
  split; [|apply sort_values_sorted].
  intros r. rewrite Hperm. apply add_to_pickup_datetime_elem_of.
Qed.

(** C10. If the loader returns only rides of the requested month, every
    ride of a successful run is at or after [from_date], in the one-month
    and in the two-month branch. *)
Theorem fetch_enforces_lower_bound (from_date to_date : pyobj) (s s' : state W)
    (out : list ride) :
  (forall y months w rides w',
     loader y months w = (inr rides, w') ->
     forall r, r ∈ rides ->
       year_of_ticks (pickup_datetime r) = y /\
       month_of_ticks (pickup_datetime r) ∈ months) ->
  fetch from_date to_date s = (Ok out, s') ->
  exists f,
    parse from_date = Ok (PyDatetime f) /\ tzinfo f = None /\
    forall r, r ∈ out -> ticks f <= pickup_datetime r.
Proof.
  intros Hloader (f & t & hf & ht & hist & Hv & Hh & Hl & ->)%fetch_batch_raw_data_Ok.
  apply validate_dates_Ok in Hv as (Hpf & Hpt & Hge).
  apply historical_dates_Ok in Hh as (Hrf & Hrt & -> & ->).
  apply load_historical_rides_Ok in Hl as (Htz & rides_from & w1 & Hl1 & Hbranch).
  cbn [tzinfo ticks] in *.
  exists f. split; [done|]. split; [done|].
  apply datetime_ge_false in Hge as [(_ & Htzt & Hlt)|(oa & ? & Hsome & _)];
    [|congruence].
  assert (Hhist : forall r0, r0 ∈ hist -> ticks f - timedelta 52 <= pickup_datetime r0).
  { intros r0 Hr0.
    destruct Hbranch as [(_ & -> & _)|(Hm & _ & rides_to & w2 & Hl2 & -> & _)].
    - by apply list_elem_of_filter in Hr0 as [? _].
    - apply elem_of_app in Hr0 as [Hr0|Hr0].
      + by apply list_elem_of_filter in Hr0 as [? _].
      + apply list_elem_of_filter in Hr0 as [_ Hr0].
        destruct (Hloader _ _ _ _ _ Hl2 r0 Hr0) as [Hy Hmo].
        apply list_elem_of_singleton in Hmo.
        unfold year, month in *. cbn [ticks] in *.
        apply (later_month_not_before _ (ticks t - timedelta 52)); [lia|done..]. }
  intros r Hr. rewrite sort_values_Permutation in Hr.
  apply add_to_pickup_datetime_elem_of in Hr as (r0 & Hr0 & -> & _).
  specialize (Hhist r0 Hr0). lia.
Qed.

End FetchFacts.

Section ShiftFacts.
Context (E : Type).


(** C4 (as amended). The offset is the constant 52, not a parameter:
    [historical_dates] takes the two bounds only and, where the shifted
    bounds are representable, returns both shifted earlier by exactly
    52 * 7 = 364 days, as a pure function; on "2025-03-04" and "2025-04-01"
    it yields 2024-03-05 and 2024-04-02. *)
Theorem historical_dates_shift_364_days :
  (forall (from_date to_date : datetime),
     0 <= ticks from_date - 364 * US_PER_DAY < MAX_TICKS ->
     0 <= ticks to_date - 364 * US_PER_DAY < MAX_TICKS ->
     historical_dates (E:=E) from_date to_date =
     Ok ({| ticks := ticks from_date - 364 * US_PER_DAY;
            tzinfo := tzinfo from_date |},
         {| ticks := ticks to_date - 364 * US_PER_DAY;
            tzinfo := tzinfo to_date |})) /\
  (exists f t,
     validate_dates (E:=E) Examples.fromisoformat_date
       (PyStr "2025-03-04") (PyStr "2025-04-01") = Ok (f, t) /\
     historical_dates (E:=E) f t =
     Ok (mk_datetime 2024 3 5 0 0 0, mk_datetime 2024 4 2 0 0 0)).
Proof.
  split.
  - intros f t Hf Ht. apply historical_dates_Ok.
    change (timedelta 52) with (364 * US_PER_DAY). done.
  - exists (mk_datetime 2025 3 4 0 0 0), (mk_datetime 2025 4 1 0 0 0).
    split; reflexivity.
Qed.

End ShiftFacts.

Module Witnesses.
Import Examples.

#[local] Abbreviation fetch :=
  (fetch_batch_raw_data fromisoformat_date (archive_loader archive)).

Example fetch_notebook_run :
  fetch (PyDatetime fetch_data_from) (PyDatetime fetch_data_to) initial
  = (Ok fetched, fetched_state).
Proof. vm_compute. reflexivity. Qed.

Lemma archive_loader_months (rides0 : list ride) (y : Z) (months : list Z)
    (w : unit) (rides : list ride) (w' : unit) :
  archive_loader rides0 y months w = (inr rides, w') ->
  forall r, r ∈ rides ->
    year_of_ticks (pickup_datetime r) = y /\
    month_of_ticks (pickup_datetime r) ∈ months.
Proof.
  unfold archive_loader. intros [= <- _] r Hr.
  by apply list_elem_of_filter in Hr as [? _].
Qed.

(** C3, at the failing input: a window inside one month, 2025-03-10 to
    2025-03-11.  One call is made, for March 2024, and the ride of
    2024-03-20 12:00, after the historical upper bound 2024-03-12, is
    returned, relabeled 2025-03-19 12:00: at or after [to_date]. *)
Lemma fetch_one_month_keeps_rides_after_to_date :
  let from_date := mk_datetime 2025 3 10 0 0 0 in
  let to_date := mk_datetime 2025 3 11 0 0 0 in
  let late := {| pickup_datetime := ticks_of_fields 2025 3 19 12 0 0;
                 pickup_location_id := 1 |} in
  historical_dates (E:=Empty_set) from_date to_date
    = Ok (mk_datetime 2024 3 11 0 0 0, mk_datetime 2024 3 12 0 0 0) /\
  fetch (PyDatetime from_date) (PyDatetime to_date) initial
    = (Ok [late], {| world := tt; calls := [(2024, [3])] |}) /\
  ticks to_date <= pickup_datetime late.
Proof. vm_compute. split; [reflexivity|]. split; [reflexivity|]. discriminate. Qed.

(** C4, counterexample: the bounds are not shifted by [weeks * 7] days
    for every positive [weeks]; with [weeks = 1] on 2025-03-04 and
    2025-04-01 the code still shifts by 364 days. *)
Lemma historical_dates_weeks_counterexample :
  ~ (forall (weeks : Z) (from_date to_date : datetime),
       0 < weeks ->
       datetime_ge (E:=Empty_set) from_date to_date = Ok false ->
       historical_dates (E:=Empty_set) from_date to_date =
       Ok ({| ticks := ticks from_date - weeks * 7 * US_PER_DAY;
              tzinfo := tzinfo from_date |},
           {| ticks := ticks to_date - weeks * 7 * US_PER_DAY;
              tzinfo := tzinfo to_date |})).
Proof.
  intros H.
  specialize (H 1 (mk_datetime 2025 3 4 0 0 0) (mk_datetime 2025 4 1 0 0 0)
                eq_refl eq_refl).
  vm_compute in H. discriminate H.
Qed.

Lemma historical_dates_shift_364_days_witness :
  historical_dates (E:=Empty_set) fetch_data_from fetch_data_to =
  Ok (mk_datetime 2024 2 6 6 0 0, mk_datetime 2024 3 5 6 0 0).
Proof.
  apply (proj1 (historical_dates_shift_364_days Empty_set)
           fetch_data_from fetch_data_to); vm_compute; split; congruence.
Defined.

Lemma fetch_rejects_invalid_dates_witness :
  (exists msg,
     fetch (PyStr "2025-02-01") (PyStr "2025-01-01") initial
     = (Raise (ValueError msg), initial)) /\
  (exists msg,
     fetch (PyStr "yesterday") (PyStr "2025-01-01") initial
     = (Raise (ValueError msg), initial)) /\
  (exists msg,
     fetch (PyDatetime fetch_data_from) (PyStr "2025-02-30") initial
     = (Raise (ValueError msg), initial)).
Proof.
  split; [|split].
  - apply (proj1 (fetch_rejects_invalid_dates fromisoformat_date
                    (archive_loader archive)
                    (PyStr "2025-02-01") (PyStr "2025-01-01") initial)
             (mk_datetime 2025 2 1 0 0 0) (mk_datetime 2025 1 1 0 0 0));
      reflexivity.
  - apply (proj1 (proj2 (fetch_rejects_invalid_dates fromisoformat_date
                    (archive_loader archive)
                    (PyStr "yesterday") (PyStr "2025-01-01") initial))
             "yesterday"); reflexivity.
  - apply (proj2 (proj2 (fetch_rejects_invalid_dates fromisoformat_date
                    (archive_loader archive)
                    (PyDatetime fetch_data_from) (PyStr "2025-02-30") initial))
             "2025-02-30"); reflexivity.
Defined.

Lemma fetch_relabels_and_sorts_witness :
  exists f t hf ht hist,
    validate_dates (E:=Empty_set) fromisoformat_date
      (PyDatetime fetch_data_from) (PyDatetime fetch_data_to) = Ok (f, t) /\
    historical_dates (E:=Empty_set) f t = Ok (hf, ht) /\
    load_historical_rides (archive_loader archive) hf ht initial
      = (Ok hist, fetched_state) /\
    fetched ≡ₚ add_to_pickup_datetime (52 * 7 * US_PER_DAY) hist /\
    length fetched = length hist /\
    (forall r, r ∈ fetched <->
       exists r0, r0 ∈ hist /\
         pickup_datetime r = pickup_datetime r0 + 52 * 7 * US_PER_DAY /\
         pickup_location_id r = pickup_location_id r0) /\
    StronglySorted ride_le fetched.
Proof.
  apply (fetch_relabels_and_sorts fromisoformat_date (archive_loader archive)
           (PyDatetime fetch_data_from) (PyDatetime fetch_data_to)
           initial fetched_state fetched).
  vm_compute. reflexivity.
Defined.



Lemma validation_precedes_loading_witness :
  fetch (PyStr "2025-02-01") (PyStr "2025-01-01") initial
  = (Raise (ValueError "'from_date' must be earlier than 'to_date'."), initial) /\
  calls initial = [].
Proof.
  split; [|reflexivity].
  apply (proj1 (validation_precedes_loading fromisoformat_date
                  (archive_loader archive)
                  (PyStr "2025-02-01") (PyStr "2025-01-01") initial)).
  reflexivity.
Defined.

Lemma fetch_enforces_lower_bound_witness :
  exists f,
    parse_if_str (E:=Empty_set) fromisoformat_date (PyDatetime fetch_data_from)
      = Ok (PyDatetime f) /\
    tzinfo f = None /\
    forall r, r ∈ fetched -> ticks f <= pickup_datetime r.
Proof.
  apply (fetch_enforces_lower_bound fromisoformat_date (archive_loader archive)
           (PyDatetime fetch_data_from) (PyDatetime fetch_data_to)
           initial fetched_state fetched).
  - apply archive_loader_months.
  - vm_compute. reflexivity.
Defined.

End Witnesses.

(** ** Fields of a datetime, [replace], flooring to the hour *)

Section FieldFacts.

(** [replace(minute=0, second=0, microsecond=0)] floors to the hour. *)
Lemma replace_minute_second_microsecond_0_floor (d : datetime) :
  replace_minute_second_microsecond_0 d = floor_h d.
Proof.
  unfold replace_minute_second_microsecond_0, floor_h. f_equal.
  unfold ticks_of_fields, year, month, day, hour, year_of_ticks, month_of_ticks.
  pose proof (CalendarFacts.ord2ymd_spec (ordinal_of_ticks (ticks d))) as Hs.
  destruct (Calendar.ord2ymd (ordinal_of_ticks (ticks d))) as [[y m] dd].
  destruct Hs as (_ & _ & Hord). cbn [fst snd]. rewrite Hord.
  unfold ordinal_of_ticks, US_PER_DAY, US_PER_HOUR.
  Z.div_mod_to_equations. lia.
Qed.

Lemma floor_h_fields (d : datetime) :
  minute (floor_h d) = 0 /\ second (floor_h d) = 0 /\ microsecond (floor_h d) = 0.
Proof.
  unfold minute, second, microsecond, floor_h, US_PER_HOUR, US_PER_MINUTE,
    US_PER_SECOND. cbn [ticks].
  repeat split; Z.div_mod_to_equations; lia.
Qed.

Lemma floor_h_bounds (d : datetime) :
  ticks (floor_h d) <= ticks d < ticks (floor_h d) + US_PER_HOUR.
Proof.
  unfold floor_h, US_PER_HOUR. cbn [ticks]. Z.div_mod_to_equations. lia.
Qed.

(** The time of day splits into its fields. *)
Lemma time_of_day_fields (d : datetime) :
  ticks d - ticks (floor_h d)
  = minute d * US_PER_MINUTE + second d * US_PER_SECOND + microsecond d /\
  0 <= minute d < 60 /\ 0 <= second d < 60 /\ 0 <= microsecond d < US_PER_SECOND.
Proof.
  unfold minute, second, microsecond, floor_h, US_PER_HOUR, US_PER_MINUTE,
    US_PER_SECOND. cbn [ticks].
  repeat split; Z.div_mod_to_equations; lia.
Qed.

End FieldFacts.

(** ** The predictions notebook *)

Section NextHourFacts.
Context {W E D : Type}.
Variable get_feature_group : W -> (E + unit) * W.

(** The result of [get_current_utc_hour_ceiled], by cases on the clock. *)
Lemma get_current_utc_hour_ceiled_cases (t : Z) :
  0 <= t -> t + US_PER_HOUR < MAX_TICKS ->
  get_current_utc_hour_ceiled (E:=E) t =
  Ok {| ticks := t / US_PER_HOUR * US_PER_HOUR
                 + (if (0 <? minute (now_utc t)) || (0 <? second (now_utc t))
                    then US_PER_HOUR else 0);
        tzinfo := Some 0 |}.
Proof.
  intros Ht Hmax. unfold get_current_utc_hour_ceiled.
  destruct ((0 <? minute (now_utc t)) || (0 <? second (now_utc t))).
  - assert (Hadd : datetime_add (E:=E) (now_utc t) (timedelta_hours 1)
                   = Ok {| ticks := t + US_PER_HOUR; tzinfo := Some 0 |}).
    { apply datetime_add_Ok. unfold timedelta_hours. cbn [ticks tzinfo now_utc].
      unfold US_PER_HOUR in *. split; [lia|]. f_equal; lia. }
    rewrite Hadd. cbn [mbind result_bind].
    rewrite replace_minute_second_microsecond_0_floor. unfold floor_h.
    cbn [ticks tzinfo]. do 2 f_equal. unfold US_PER_HOUR.
    Z.div_mod_to_equations. lia.
  - cbn [mbind result_bind].
    rewrite replace_minute_second_microsecond_0_floor. unfold floor_h, now_utc.
    cbn [ticks tzinfo]. do 2 f_equal. lia.
Qed.

Lemma next_hour_value (t : Z) :
  0 <= t -> t + US_PER_HOUR < MAX_TICKS ->
  next_hour (E:=E) t =
  Ok {| ticks := t / US_PER_HOUR * US_PER_HOUR + US_PER_HOUR; tzinfo := Some 0 |}.
Proof.
  intros Ht Hmax. unfold next_hour.
  assert (Hadd : datetime_add (E:=E) (now_utc t) (timedelta_hours 1)
                 = Ok {| ticks := t + US_PER_HOUR; tzinfo := Some 0 |}).
  { apply datetime_add_Ok. unfold timedelta_hours. cbn [ticks tzinfo now_utc].
    unfold US_PER_HOUR in *. split; [lia|]. f_equal; lia. }
  rewrite Hadd. cbn [mbind result_bind].
  rewrite replace_minute_second_microsecond_0_floor. unfold floor_h.
  cbn [ticks tzinfo]. do 2 f_equal. unfold US_PER_HOUR.
  Z.div_mod_to_equations. lia.
Qed.


(** X1. [get_current_utc_hour_ceiled] returns a whole hour in UTC, less
    than one second before and less than one hour after the clock reading. *)
Theorem get_current_utc_hour_ceiled_whole_hour (t : Z) :
  0 <= t -> t + US_PER_HOUR < MAX_TICKS ->
  exists c,
    get_current_utc_hour_ceiled (E:=E) t = Ok c /\
    tzinfo c = Some 0 /\
    minute c = 0 /\ second c = 0 /\ microsecond c = 0 /\
    t - US_PER_SECOND < ticks c < t + US_PER_HOUR.
Proof.
  intros Ht Hmax. rewrite get_current_utc_hour_ceiled_cases by done.
  eexists. split; [done|]. split; [done|].
  pose proof (time_of_day_fields (now_utc t)) as (Hsplit & Hmi & Hse & Hus).
  unfold floor_h in Hsplit. cbn [ticks now_utc] in Hsplit.
  unfold minute, second, microsecond in *. cbn [ticks now_utc] in *.
  destruct (Z.ltb_spec 0 (t mod US_PER_HOUR / US_PER_MINUTE));
    destruct (Z.ltb_spec 0 (t mod US_PER_MINUTE / US_PER_SECOND)); cbn [orb];
    unfold US_PER_HOUR, US_PER_MINUTE, US_PER_SECOND in *;
    repeat split; Z.div_mod_to_equations; lia.
Qed.

(** X2. [get_current_utc_hour_ceiled] agrees with the ceiling
    [Timestamp.ceil('h')] of the clock reading, and is then not before it,
    unless the reading is strictly within the first second of an hour: there
    it returns the start of that hour, one hour before the ceiling and before
    the reading. *)
Theorem get_current_utc_hour_ceiled_vs_ceil (t : Z) :
  0 <= t -> t + US_PER_HOUR < MAX_TICKS ->
  exists c,
    get_current_utc_hour_ceiled (E:=E) t = Ok c /\
    (minute (now_utc t) = 0 -> second (now_utc t) = 0 ->
     0 < microsecond (now_utc t) ->
     ticks c < t /\ ticks c = ticks (ceil_h (now_utc t)) - US_PER_HOUR) /\
    (~ (minute (now_utc t) = 0 /\ second (now_utc t) = 0 /\
        0 < microsecond (now_utc t)) ->
     c = ceil_h (now_utc t) /\ t <= ticks c).
Proof.
  intros Ht Hmax. rewrite get_current_utc_hour_ceiled_cases by done.
  eexists. split; [done|].
  pose proof (time_of_day_fields (now_utc t)) as (Hsplit & Hmi & Hse & Hus).
  unfold floor_h in Hsplit. unfold ceil_h. cbn [ticks tzinfo now_utc] in *.
  unfold minute, second, microsecond in *. cbn [ticks now_utc] in *.
  destruct (Z.ltb_spec 0 (t mod US_PER_HOUR / US_PER_MINUTE));
    destruct (Z.ltb_spec 0 (t mod US_PER_MINUTE / US_PER_SECOND)); cbn [orb];
    (split; [intros; split | intros Hn; split; [f_equal|]]);
    unfold US_PER_HOUR, US_PER_MINUTE, US_PER_SECOND in *;
    Z.div_mod_to_equations; lia.
Qed.

(** X3. [next_hour] is the start of the hour after the current one:
    a whole hour in UTC, strictly after the clock reading and at most one
    hour after it. *)
Theorem next_hour_strictly_after (t : Z) :
  0 <= t -> t + US_PER_HOUR < MAX_TICKS ->
  exists nh,
    next_hour (E:=E) t = Ok nh /\
    tzinfo nh = Some 0 /\
    minute nh = 0 /\ second nh = 0 /\ microsecond nh = 0 /\
    ticks nh = ticks (floor_h (now_utc t)) + US_PER_HOUR /\
    t < ticks nh <= t + US_PER_HOUR.
Proof.
  intros Ht Hmax. rewrite next_hour_value by done.
  eexists. split; [done|]. split; [done|].
  unfold minute, second, microsecond, floor_h. cbn [ticks now_utc].
  unfold US_PER_HOUR, US_PER_MINUTE, US_PER_SECOND in *.
  repeat split; Z.div_mod_to_equations; lia.
Qed.

(** X4. The two next-hour computations of the notebook agree when the
    clock shows a minute or a second greater than 0; when both are 0,
    [next_hour] is one hour after [get_current_utc_hour_ceiled]. *)
Theorem next_hour_vs_ceiled (t : Z) :
  0 <= t -> t + US_PER_HOUR < MAX_TICKS ->
  exists nh c,
    next_hour (E:=E) t = Ok nh /\
    get_current_utc_hour_ceiled (E:=E) t = Ok c /\
    (0 < minute (now_utc t) \/ 0 < second (now_utc t) -> nh = c) /\
    (minute (now_utc t) = 0 -> second (now_utc t) = 0 ->
     ticks nh = ticks c + US_PER_HOUR).
Proof.
  intros Ht Hmax.
  rewrite next_hour_value, get_current_utc_hour_ceiled_cases by done.
  do 2 eexists. split; [done|]. split; [done|].
  destruct (Z.ltb_spec 0 (minute (now_utc t)));
    destruct (Z.ltb_spec 0 (second (now_utc t))); cbn [orb ticks];
    split; try done; try lia.
Qed.

(** X5. [fetch_next_hour_predictions], when the feature store answers,
    returns the rows of [df] whose [pickup_hour] is the next hour, each as
    often as in [df] and in the order of [df]; their [pickup_hour] is a whole
    hour strictly after the clock reading and at most one hour after it.  When
    the feature store raises, so does the function, although the rows come
    from [df]. *)
Theorem fetch_next_hour_predictions_rows (t : Z) (df : list (prediction D))
    (w : W) :
  0 <= t -> t + US_PER_HOUR < MAX_TICKS ->
  (forall w', get_feature_group w = (inr tt, w') ->
     exists rows,
       fetch_next_hour_predictions get_feature_group t df w = (Ok rows, w') /\
       rows = filter (fun p => pickup_hour p
                               = t / US_PER_HOUR * US_PER_HOUR + US_PER_HOUR) df /\
       sublist rows df /\
       (forall p, p ∈ rows ->
          t < pickup_hour p <= t + US_PER_HOUR /\
          pickup_hour p mod US_PER_HOUR = 0)) /\
  (forall e w', get_feature_group w = (inl e, w') ->
     fetch_next_hour_predictions get_feature_group t df w
     = (Raise (LoaderError e), w')).
Proof.
  intros Ht Hmax. unfold fetch_next_hour_predictions.
  rewrite next_hour_value by done. split.
  - intros w' ->. eexists. split; [done|].
    assert (Hf : filter (fun p : prediction D => same_instant (pickup_hour p)
                   {| ticks := t / US_PER_HOUR * US_PER_HOUR + US_PER_HOUR;
                      tzinfo := Some 0 |}) df
                 = filter (fun p => pickup_hour p
                             = t / US_PER_HOUR * US_PER_HOUR + US_PER_HOUR) df).
    { apply list_filter_iff. intros p. unfold same_instant. cbn [tzinfo ticks].
      by rewrite Z.sub_0_r. }
    rewrite Hf. split; [done|]. split; [apply sublist_filter|].
    intros p [Hp _]%list_elem_of_filter. rewrite Hp.
    unfold US_PER_HOUR in *. split; Z.div_mod_to_equations; lia.
  - intros e w' ->. done.
Qed.

End NextHourFacts.

(** ** Months along the time line *)

Module MonthFacts.
Import Calendar CalendarFacts.

Lemma days_in_month_ge_28 (y m : Z) :
  1 <= m <= 12 -> 28 <= days_in_month y m <= 31.
Proof.
  intros Hm. unfold days_in_month.
  destruct (month_cases m Hm) as [E|[E|[E|[E|[E|[E|[E|[E|[E|[E|[E|E]]]]]]]]]]];
    subst m; destruct (is_leap y); cbn; lia.
Qed.

(** Between two ordinals at most 28 days apart there is no third month. *)
Lemma ord2ymd_within_28 (a n b : Z) :
  a <= n <= b -> b - a <= 28 ->
  (ord2ymd n).1 = (ord2ymd a).1 \/ (ord2ymd n).1 = (ord2ymd b).1.
Proof.
  intros [Han Hnb] Hlen.
  pose proof (ord2ymd_mono _ _ Han) as Hm1.
  pose proof (ord2ymd_mono _ _ Hnb) as Hm2.
  pose proof (ord2ymd_spec a) as Ha. pose proof (ord2ymd_spec n) as Hn.
  pose proof (ord2ymd_spec b) as Hb.
  destruct (ord2ymd a) as [[ya ma] da], (ord2ymd n) as [[yn mn] dn],
    (ord2ymd b) as [[yb mb] db]. cbn [fst snd] in *.
  destruct Ha as (Hma & Hda & Ha), Hn as (Hmn & Hdn & Hn), Hb as (Hmb & Hdb & Hb).
  destruct (decide ((yn, mn) = (ya, ma))) as [|Hne1]; [by left|].
  destruct (decide ((yn, mn) = (yb, mb))) as [|Hne2]; [by right|].
  exfalso.
  pose proof (days_in_month_ge_28 yn mn Hmn) as Hdim.
  assert (Hlt1 : ya < yn \/ (ya = yn /\ ma < mn)).
  { destruct Hm1 as [|[-> ?]]; [by left|right]. split; [done|].
    destruct (decide (ma = mn)) as [->|]; [done|lia]. }
  assert (Hlt2 : yn < yb \/ (yn = yb /\ mn < mb)).
  { destruct Hm2 as [|[-> ?]]; [by left|right]. split; [done|].
    destruct (decide (mn = mb)) as [->|]; [done|lia]. }
  assert (H1 : 1 <= 1 <= days_in_month yn mn) by lia.
  assert (H2 : 1 <= days_in_month yn mn <= days_in_month yn mn) by lia.
  pose proof (ymd2ord_lt ya ma da yn mn 1 Hma Hda Hmn H1 Hlt1) as Hfirst.
  pose proof (ymd2ord_lt yn mn (days_in_month yn mn) yb mb db Hmn H2 Hmb Hdb Hlt2)
    as Hlast.
  unfold ymd2ord in *. lia.
Qed.

(** Two ordinals at most 28 days apart with the same month number are in
    the same year. *)
Lemma ord2ymd_same_month_same_year (a b : Z) :
  a <= b -> b - a <= 28 ->
  (ord2ymd a).1.2 = (ord2ymd b).1.2 -> (ord2ymd a).1.1 = (ord2ymd b).1.1.
Proof.
  intros Hab Hlen Hmonth.
  pose proof (ord2ymd_mono _ _ Hab) as Hm.
  pose proof (ord2ymd_spec a) as Ha. pose proof (ord2ymd_spec b) as Hb.
  destruct (ord2ymd a) as [[ya ma] da], (ord2ymd b) as [[yb mb] db].
  cbn [fst snd] in *. subst mb.
  destruct Ha as (Hma & Hda & Ha), Hb as (_ & Hdb & Hb).
  destruct Hm as [Hlt|[? _]]; [|done]. exfalso.
  pose proof (days_before_year_succ ya) as Hsucc.
  pose proof (days_before_year_mono (ya + 1) yb) as Hmono.
  pose proof (days_in_month_ge_28 ya ma Hma).
  assert (Hdbm : days_before_month yb ma - days_before_month ya ma >= -1).
  { unfold days_before_month.
    destruct ((2 <? ma) && is_leap yb), ((2 <? ma) && is_leap ya); lia. }
  assert (Hend : days_before_month ya ma + da <= 365 + (if is_leap ya then 1 else 0))
    by (apply days_before_month_bounds; done).
  assert (Hdbm0 : 0 <= days_before_month ya ma).
  { unfold days_before_month.
    destruct (month_cases ma Hma) as [E|[E|[E|[E|[E|[E|[E|[E|[E|[E|[E|E]]]]]]]]]]];
      subst ma; destruct (is_leap ya); cbn; lia. }
  unfold ymd2ord in *.
  destruct (is_leap ya); lia.
Qed.

End MonthFacts.

(** ** More on [fetch_batch_raw_data] *)

Lemma ordinal_of_ticks_mono (a b : Z) :
  a <= b -> ordinal_of_ticks a <= ordinal_of_ticks b.
Proof.
  intros. unfold ordinal_of_ticks. apply Z.add_le_mono_r, Z.div_le_mono; [done|lia].
Qed.

(** Rides of the month of an instant [a] are before any later instant [b] of
    another month. *)
Lemma earlier_month_before (a b x : Z) :
  a <= b ->
  month_of_ticks b <> month_of_ticks a ->
  year_of_ticks x = year_of_ticks a ->
  month_of_ticks x = month_of_ticks a ->
  x < b.
Proof.
  intros Hab Hm Hy Hmx. destruct (decide (x < b)) as [|Hge]; [done|].
  exfalso. unfold year_of_ticks, month_of_ticks in *.
  pose proof (CalendarFacts.ord2ymd_mono _ _ (ordinal_of_ticks_mono a b Hab)).
  pose proof (CalendarFacts.ord2ymd_mono _ _ (ordinal_of_ticks_mono b x ltac:(lia))).
  lia.
Qed.

(** An instant of a window of at most 28 days is in the month of one of the
    bounds of the window. *)
Lemma within_28_days_months (a x b : Z) :
  a <= x < b -> b - a <= 28 * US_PER_DAY ->
  (year_of_ticks x = year_of_ticks a /\ month_of_ticks x = month_of_ticks a) \/
  (year_of_ticks x = year_of_ticks b /\ month_of_ticks x = month_of_ticks b).
Proof.
  intros [Hax Hxb] Hlen. unfold year_of_ticks, month_of_ticks.
  assert (Hord : ordinal_of_ticks b - ordinal_of_ticks a <= 28).
  { unfold ordinal_of_ticks, US_PER_DAY in *. Z.div_mod_to_equations. lia. }
  destruct (MonthFacts.ord2ymd_within_28 (ordinal_of_ticks a) (ordinal_of_ticks x)
              (ordinal_of_ticks b)) as [H|H];
    [split; apply ordinal_of_ticks_mono; lia | done | left | right];
    by rewrite H.
Qed.

Lemma within_28_days_same_month (a b : Z) :
  a <= b -> b - a <= 28 * US_PER_DAY ->
  month_of_ticks a = month_of_ticks b -> year_of_ticks a = year_of_ticks b.
Proof.
  intros Hab Hlen. unfold year_of_ticks, month_of_ticks.
  apply MonthFacts.ord2ymd_same_month_same_year.
  - by apply ordinal_of_ticks_mono.
  - unfold ordinal_of_ticks, US_PER_DAY in *. Z.div_mod_to_equations. lia.
Qed.

(** An instant of the calendar month of [a] is less than 31 days after
    [a]. *)
Lemma same_month_within_31_days (a x : Z) :
  year_of_ticks x = year_of_ticks a ->
  month_of_ticks x = month_of_ticks a ->
  x < a + 31 * US_PER_DAY.
Proof.
  unfold year_of_ticks, month_of_ticks. intros Hy Hm.
  pose proof (CalendarFacts.ord2ymd_spec (ordinal_of_ticks a)) as Ha.
  pose proof (CalendarFacts.ord2ymd_spec (ordinal_of_ticks x)) as Hx.
  destruct (Calendar.ord2ymd (ordinal_of_ticks a)) as [[ya ma] da],
    (Calendar.ord2ymd (ordinal_of_ticks x)) as [[yx mx] dx].
  cbn [fst snd] in *. subst yx mx.
  destruct Ha as (Hma & Hda & Ha), Hx as (_ & Hdx & Hx).
  pose proof (MonthFacts.days_in_month_ge_28 ya ma Hma).
  assert (Hord : ordinal_of_ticks x - ordinal_of_ticks a <= 30).
  { rewrite <- Ha, <- Hx. unfold Calendar.ymd2ord. lia. }
  unfold ordinal_of_ticks, US_PER_DAY in *. Z.div_mod_to_equations. lia.
Qed.

(** A shift by whole weeks keeps the weekday and the time of day. *)
Lemma weekday_of_ticks_weeks (t w : Z) :
  weekday_of_ticks (t + timedelta w) = weekday_of_ticks t.
Proof.
  unfold weekday_of_ticks, ordinal_of_ticks, timedelta, US_PER_DAY.
  Z.div_mod_to_equations. lia.
Qed.

(** The bounds of a Timestamp as dates: 1677-09-21 00:12:43.145225 and
    2262-04-11 23:47:16.854775, both within the range of [datetime]. *)
Lemma timestamp_bounds_fields :
  (let d := utcnow TIMESTAMP_MIN in
   (year d, month d, day d, hour d, minute d, second d, microsecond d)
   = (1677, 9, 21, 0, 12, 43, 145225)) /\
  (let d := utcnow TIMESTAMP_MAX in
   (year d, month d, day d, hour d, minute d, second d, microsecond d)
   = (2262, 4, 11, 23, 47, 16, 854775)) /\
  0 <= TIMESTAMP_MIN /\ TIMESTAMP_MAX < MAX_TICKS.
Proof. by vm_compute. Qed.

Section MoreFetchFacts.
Context {W E : Type}.
Variable fromisoformat : string -> option datetime.
Variable loader : Z -> list Z -> W -> (E + list ride) * W.

#[local] Abbreviation fetch := (fetch_batch_raw_data fromisoformat loader).
#[local] Abbreviation validate := (validate_dates (E:=E) fromisoformat).
#[local] Abbreviation parse := (parse_if_str (E:=E) fromisoformat).
#[local] Abbreviation load_rides := (load_historical_rides loader).

(** The loader calls of the loading phase, whatever its outcome. *)
Lemma load_historical_rides_calls (hf ht : datetime) (s s' : state W)
    (r : result E (list ride)) :
  load_rides hf ht s = (r, s') ->
  calls s' = calls s ++ [(year hf, [month hf])] \/
  (month ht <> month hf /\
   calls s' = calls s ++ [(year hf, [month hf]); (year ht, [month ht])]).
Proof.
  unfold load_historical_rides, mbind, M_bind, mret, M_ret, lift, call_loader,
    filter_ge, filter_lt.
  intros Hrun.
  destruct (loader (year hf) [month hf] (world s)) as [[e|rides_from] w1];
    [injection Hrun as <- <-; by left|].
  destruct (tzinfo hf); [injection Hrun as <- <-; by left|].
  destruct (Z.eqb_spec (month ht) (month hf)) as [Hm|Hm]; cbn [negb] in Hrun;
    [injection Hrun as <- <-; by left|].
  cbn [world calls] in Hrun. right. split; [done|].
  destruct (loader (year ht) [month ht] w1) as [[e|rides_to] w2];
    [injection Hrun as <- <-; cbn [calls]; by rewrite <- app_assoc|].
  destruct (tzinfo ht); injection Hrun as <- <-; cbn [calls];
    by rewrite <- app_assoc.
Qed.


(** X6. Two-month branch: if the loader returns only rides of the requested
    month and the historical bounds are in months of different number, every
    ride of a successful run is in the requested window
    [[from_date, to_date)]. *)
Theorem fetch_two_months_within_window (from_date to_date : pyobj)
    (f t : datetime) (s s' : state W) (out : list ride) :
  (forall y months w rides w',
     loader y months w = (inr rides, w') ->
     forall r, r ∈ rides ->
       year_of_ticks (pickup_datetime r) = y /\
       month_of_ticks (pickup_datetime r) ∈ months) ->
  parse from_date = Ok (PyDatetime f) ->
  parse to_date = Ok (PyDatetime t) ->
  month_of_ticks (ticks t - timedelta 52) <> month_of_ticks (ticks f - timedelta 52) ->
  fetch from_date to_date s = (Ok out, s') ->
  forall r, r ∈ out -> ticks f <= pickup_datetime r < ticks t.
Proof.
  intros Hloader Hpf Hpt Hmonths
    (f' & t' & hf & ht & hist & Hv & Hh & Hl & ->)%fetch_batch_raw_data_Ok.
  apply validate_dates_Ok in Hv as (Hpf' & Hpt' & Hge).
  rewrite Hpf in Hpf'. rewrite Hpt in Hpt'.
  injection Hpf' as <-. injection Hpt' as <-.
  apply historical_dates_Ok in Hh as (Hrf & Hrt & -> & ->).
  apply load_historical_rides_Ok in Hl as (Htz & rides_from & w1 & Hl1 & Hbranch).
  unfold year, month in *. cbn [tzinfo ticks] in *.
  apply datetime_ge_false in Hge as [(_ & Htzt & Hlt)|(oa & ? & Hsome & _)];
    [|congruence].
  destruct Hbranch as [(Hm & _)|(_ & _ & rides_to & w2 & Hl2 & -> & _)];
    [done|].
  intros r Hr. rewrite sort_values_Permutation in Hr.
  apply add_to_pickup_datetime_elem_of in Hr as (r0 & Hr0 & -> & _).
  apply elem_of_app in Hr0 as [Hr0|Hr0];
    apply list_elem_of_filter in Hr0 as [Hb Hr0].
  - destruct (Hloader _ _ _ _ _ Hl1 r0 Hr0) as [Hy Hmo].
    apply list_elem_of_singleton in Hmo.
    pose proof (earlier_month_before (ticks f - timedelta 52)
                  (ticks t - timedelta 52) (pickup_datetime r0)
                  ltac:(lia) Hmonths Hy Hmo).
    lia.
  - destruct (Hloader _ _ _ _ _ Hl2 r0 Hr0) as [Hy Hmo].
    apply list_elem_of_singleton in Hmo.
    pose proof (later_month_not_before (ticks f - timedelta 52)
                  (ticks t - timedelta 52) (pickup_datetime r0)
                  ltac:(lia) Hmonths Hy Hmo).
    lia.
Qed.

(** X7. The loader is called at most twice in a run, whatever its outcome:
    not at all, or for the month of the historical lower bound, or for that
    month and then for the month of the historical upper bound; a successful
    run makes the one call when the two month numbers are equal and the two
    calls otherwise. *)
Theorem fetch_loader_calls (from_date to_date : pyobj) (s s' : state W)
    (r : result E (list ride)) :
  fetch from_date to_date s = (r, s') ->
  (calls s' = calls s /\ forall out, r <> Ok out) \/
  exists f t,
    validate from_date to_date = Ok (f, t) /\
    let hf := ticks f - timedelta 52 in
    let ht := ticks t - timedelta 52 in
    let first := (year_of_ticks hf, [month_of_ticks hf]) in
    let second := (year_of_ticks ht, [month_of_ticks ht]) in
    (calls s' = calls s ++ [first] \/
     (month_of_ticks ht <> month_of_ticks hf /\
      calls s' = calls s ++ [first; second])) /\
    (forall out, r = Ok out ->
       calls s' = calls s ++
         (if decide (month_of_ticks ht = month_of_ticks hf)
          then [first] else [first; second])).
Proof.
  rewrite fetch_batch_raw_data_unfold.
  destruct (validate from_date to_date) as [[f t]|e] eqn:Hv;
    [|intros [= <- <-]; by left].
  destruct (historical_dates f t) as [[hf ht]|e] eqn:Hh;
    [|intros [= <- <-]; by left].
  apply historical_dates_Ok in Hh as (_ & _ & -> & ->).
  destruct (load_rides _ _ s) as [r1 s1] eqn:Hl. intros Hrun.
  assert (s1 = s') as -> by (destruct r1; by injection Hrun).
  right. exists f, t. split; [done|]. cbv zeta. split.
  - apply load_historical_rides_calls in Hl. exact Hl.
  - intros out ->. destruct r1 as [hist|]; [|done].
    apply load_historical_rides_Ok in Hl as (_ & ? & ? & _ & Hbranch).
    unfold year, month in *. cbn [ticks] in *.
    destruct Hbranch as [(Hm & _ & ->)|(Hm & _ & ? & ? & _ & _ & ->)];
      cbn [calls]; destruct (decide _); try done.
    by rewrite <- app_assoc.
Qed.

(** X8. If the loader returns only rides of the requested month, every
    ride of a successful run comes, before relabeling, from the calendar month
    of the historical lower bound or from that of the historical upper bound;
    months in between are never loaded. *)
Theorem fetch_only_boundary_months (from_date to_date : pyobj) (s s' : state W)
    (out : list ride) :
  (forall y months w rides w',
     loader y months w = (inr rides, w') ->
     forall r, r ∈ rides ->
       year_of_ticks (pickup_datetime r) = y /\
       month_of_ticks (pickup_datetime r) ∈ months) ->
  fetch from_date to_date s = (Ok out, s') ->
  exists f t,
    validate from_date to_date = Ok (f, t) /\
    forall r, r ∈ out ->
      let t0 := pickup_datetime r - timedelta 52 in
      (year_of_ticks t0 = year_of_ticks (ticks f - timedelta 52) /\
       month_of_ticks t0 = month_of_ticks (ticks f - timedelta 52)) \/
      (year_of_ticks t0 = year_of_ticks (ticks t - timedelta 52) /\
       month_of_ticks t0 = month_of_ticks (ticks t - timedelta 52)).
Proof.
  intros Hloader (f & t & hf & ht & hist & Hv & Hh & Hl & ->)%fetch_batch_raw_data_Ok.
  exists f, t. split; [done|].
  apply historical_dates_Ok in Hh as (_ & _ & -> & ->).
  apply load_historical_rides_Ok in Hl as (_ & rides_from & w1 & Hl1 & Hbranch).
  unfold year, month in *. cbn [tzinfo ticks] in *.
  intros r Hr. rewrite sort_values_Permutation in Hr.
  apply add_to_pickup_datetime_elem_of in Hr as (r0 & Hr0 & -> & _).
  cbv zeta. replace (pickup_datetime r0 + timedelta 52 - timedelta 52)
    with (pickup_datetime r0) by lia.
  destruct Hbranch as [(_ & -> & _)|(_ & _ & rides_to & w2 & Hl2 & -> & _)].
  - apply list_elem_of_filter in Hr0 as [_ Hr0].
    destruct (Hloader _ _ _ _ _ Hl1 r0 Hr0) as [Hy Hmo%list_elem_of_singleton].
    by left.
  - apply elem_of_app in Hr0 as [Hr0|Hr0];
      apply list_elem_of_filter in Hr0 as [_ Hr0].
    + destruct (Hloader _ _ _ _ _ Hl1 r0 Hr0) as [Hy Hmo%list_elem_of_singleton].
      by left.
    + destruct (Hloader _ _ _ _ _ Hl2 r0 Hr0) as [Hy Hmo%list_elem_of_singleton].
      by right.
Qed.


(** A successful run on parsed dates: the dates are naive and in order,
    and the table is the relabeled, sorted table of the rides loaded for the
    historical bounds. *)
Lemma fetch_batch_raw_data_Ok_parsed (from_date to_date : pyobj) (f t : datetime)
    (s s' : state W) (out : list ride) :
  parse from_date = Ok (PyDatetime f) ->
  parse to_date = Ok (PyDatetime t) ->
  fetch from_date to_date s = (Ok out, s') ->
  tzinfo f = None /\ tzinfo t = None /\ ticks f < ticks t /\
  exists hist,
    load_rides {| ticks := ticks f - timedelta 52; tzinfo := None |}
      {| ticks := ticks t - timedelta 52; tzinfo := None |} s = (Ok hist, s') /\
    out = sort_values (add_to_pickup_datetime (timedelta 52) hist).
Proof.
  intros Hpf Hpt (f' & t' & hf & ht & hist & Hv & Hh & Hl & ->)%fetch_batch_raw_data_Ok.
  apply validate_dates_Ok in Hv as (Hpf' & Hpt' & Hge).
  rewrite Hpf in Hpf'. rewrite Hpt in Hpt'.
  injection Hpf' as <-. injection Hpt' as <-.
  apply historical_dates_Ok in Hh as (_ & _ & -> & ->).
  pose proof Hl as Hl'. apply load_historical_rides_Ok in Hl' as (Htz & _).
  cbn [tzinfo] in Htz.
  apply datetime_ge_false in Hge as [(_ & Htzt & Hlt)|(oa & ? & Hsome & _)];
    [|congruence].
  rewrite Htz, Htzt in Hl. eauto 10.
Qed.

(** The rides loaded for a historical window of at most 28 days over a
    loader that serves an archive month by month: every ride of the archive
    in the window is among them, and each of them is a ride of the archive
    from the lower bound on, less than 31 days after it. *)
Lemma load_historical_rides_short_window (archive : list ride) (a b : Z)
    (s s' : state W) (hist : list ride) :
  (forall y months w rides w',
     loader y months w = (inr rides, w') ->
     forall r, r ∈ rides <->
       r ∈ archive /\ year_of_ticks (pickup_datetime r) = y /\
       month_of_ticks (pickup_datetime r) ∈ months) ->
  a < b -> b - a <= 28 * US_PER_DAY ->
  load_rides {| ticks := a; tzinfo := None |} {| ticks := b; tzinfo := None |} s
    = (Ok hist, s') ->
  (forall r0, r0 ∈ archive -> a <= pickup_datetime r0 < b -> r0 ∈ hist) /\
  (forall r0, r0 ∈ hist ->
     r0 ∈ archive /\ a <= pickup_datetime r0 < a + 31 * US_PER_DAY).
Proof.
  intros Hloader Hlt Hlen Hl.
  apply load_historical_rides_Ok in Hl as (_ & rides_from & w1 & Hl1 & Hbranch).
  unfold year, month in *. cbn [tzinfo ticks] in *.
  pose proof (Hloader _ _ _ _ _ Hl1) as Hin1.
  split.
  - intros r0 Hr0 [Hge Hlt0].
    pose proof (within_28_days_months a (pickup_datetime r0) b
                  ltac:(lia) ltac:(lia)) as Hmonths.
    destruct Hbranch as [(Hm & -> & _)|(Hm & _ & rides_to & w2 & Hl2 & -> & _)].
    + apply list_elem_of_filter. split; [done|]. apply Hin1.
      split; [done|]. rewrite list_elem_of_singleton.
      pose proof (within_28_days_same_month a b ltac:(lia) ltac:(lia) (eq_sym Hm)).
      destruct Hmonths as [[? ?]|[? ?]]; split; congruence.
    + pose proof (Hloader _ _ _ _ _ Hl2) as Hin2.
      apply elem_of_app. destruct Hmonths as [[? ?]|[? ?]]; [left|right];
        (apply list_elem_of_filter; split; [done|]).
      * apply Hin1. by rewrite list_elem_of_singleton.
      * apply Hin2. by rewrite list_elem_of_singleton.
  - intros r0 Hr0.
    destruct Hbranch as [(_ & -> & _)|(Hm & _ & rides_to & w2 & Hl2 & -> & _)].
    + apply list_elem_of_filter in Hr0 as [Hb Hr0].
      apply Hin1 in Hr0 as (? & Hy & Hmo%list_elem_of_singleton).
      pose proof (same_month_within_31_days a _ Hy Hmo). done.
    + pose proof (Hloader _ _ _ _ _ Hl2) as Hin2.
      apply elem_of_app in Hr0 as [Hr0|Hr0];
        apply list_elem_of_filter in Hr0 as [Hb Hr0].
      * apply Hin1 in Hr0 as (? & Hy & Hmo%list_elem_of_singleton).
        pose proof (same_month_within_31_days a _ Hy Hmo). done.
      * apply Hin2 in Hr0 as (? & Hy & Hmo%list_elem_of_singleton).
        pose proof (later_month_not_before a b _ ltac:(lia) Hm Hy Hmo).
        split; [done|]. lia.
Qed.

(** X9. A window of at most 28 days is loaded completely by the one or two
    calls.  In every successful run on dates at most 28 days apart, over
    a loader whose answers are the rides of an archive in the requested
    month: every ride of the archive in the historical window is returned,
    relabeled, and every returned ride is a relabeled ride of the archive at
    or after the historical lower bound. *)
Theorem fetch_short_window_complete (archive : list ride)
    (from_date to_date : pyobj) (f t : datetime) (s s' : state W)
    (out : list ride) :
  (forall y months w rides w',
     loader y months w = (inr rides, w') ->
     forall r, r ∈ rides <->
       r ∈ archive /\ year_of_ticks (pickup_datetime r) = y /\
       month_of_ticks (pickup_datetime r) ∈ months) ->
  parse from_date = Ok (PyDatetime f) ->
  parse to_date = Ok (PyDatetime t) ->
  ticks t - ticks f <= 28 * US_PER_DAY ->
  fetch from_date to_date s = (Ok out, s') ->
  (forall r0, r0 ∈ archive ->
     ticks f - timedelta 52 <= pickup_datetime r0 < ticks t - timedelta 52 ->
     {| pickup_datetime := pickup_datetime r0 + timedelta 52;
        pickup_location_id := pickup_location_id r0 |} ∈ out) /\
  (forall r, r ∈ out ->
     exists r0, r0 ∈ archive /\
       ticks f - timedelta 52 <= pickup_datetime r0 /\
       pickup_datetime r = pickup_datetime r0 + timedelta 52 /\
       pickup_location_id r = pickup_location_id r0).
Proof.
  intros Hloader Hpf Hpt Hlen Hrun.
  destruct (fetch_batch_raw_data_Ok_parsed _ _ _ _ _ _ _ Hpf Hpt Hrun)
    as (_ & _ & Hlt & hist & Hl & ->).
  destruct (load_historical_rides_short_window archive
              (ticks f - timedelta 52) (ticks t - timedelta 52) _ _ _ Hloader
              ltac:(lia) ltac:(lia) Hl) as [Hall Honly].
  split.
  - intros r0 Hr0 Hwin. rewrite sort_values_Permutation.
    apply add_to_pickup_datetime_elem_of. exists r0. split; [|done].
    by apply Hall.
  - intros r Hr. rewrite sort_values_Permutation in Hr.
    apply add_to_pickup_datetime_elem_of in Hr as (r0 & Hr0 & Hts & Hloc).
    destruct (Honly r0 Hr0) as (? & ? & _). eauto.
Qed.

(** X10. The window of the notebook.  For a clock reading from 28 days,
    52 weeks and an hour after the first Timestamp to three days before the
    last one, [fetch_data_from] and [fetch_data_to] exist and are naive
    whole hours exactly 28 days (672 hours) apart, ending at the current
    hour; they pass the validation, and their historical bounds are
    Timestamps too.  In every successful run on them, over a loader whose
    answers are the rides of an archive in the requested month, every ride
    of the archive in the window shifted back by 52 weeks is returned, and
    every returned timestamp lies from [fetch_data_from] to less than 31
    days after it, up to three days after [fetch_data_to], within the
    bounds of a Timestamp. *)
Theorem fetch_data_window_run (archive : list ride) (clock : Z) :
  (forall y months w rides w',
     loader y months w = (inr rides, w') ->
     forall r, r ∈ rides <->
       r ∈ archive /\ year_of_ticks (pickup_datetime r) = y /\
       month_of_ticks (pickup_datetime r) ∈ months) ->
  TIMESTAMP_MIN + timedelta_days 28 + timedelta 52 + US_PER_HOUR <= clock
    <= TIMESTAMP_MAX - timedelta_days 3 ->
  exists fetch_data_from fetch_data_to,
    fetch_data_window clock = Some (fetch_data_from, fetch_data_to) /\
    tzinfo fetch_data_from = None /\ tzinfo fetch_data_to = None /\
    ticks fetch_data_to = clock / US_PER_HOUR * US_PER_HOUR /\
    ticks fetch_data_to - ticks fetch_data_from = 672 * US_PER_HOUR /\
    ticks fetch_data_from mod US_PER_HOUR = 0 /\
    validate (PyDatetime fetch_data_from) (PyDatetime fetch_data_to)
      = Ok (fetch_data_from, fetch_data_to) /\
    (exists hf ht,
       historical_dates (E:=E) fetch_data_from fetch_data_to = Ok (hf, ht) /\
       timestamp_in_bounds (ticks hf) = true /\
       timestamp_in_bounds (ticks ht) = true) /\
    forall s out s',
      fetch (PyDatetime fetch_data_from) (PyDatetime fetch_data_to) s
        = (Ok out, s') ->
      (forall r0, r0 ∈ archive ->
         ticks fetch_data_from - timedelta 52 <= pickup_datetime r0
           < ticks fetch_data_to - timedelta 52 ->
         {| pickup_datetime := pickup_datetime r0 + timedelta 52;
            pickup_location_id := pickup_location_id r0 |} ∈ out) /\
      (forall r, r ∈ out ->
         ticks fetch_data_from <= pickup_datetime r
           < ticks fetch_data_from + timedelta_days 31 /\
         pickup_datetime r < ticks fetch_data_to + timedelta_days 3 /\
         timestamp_in_bounds (pickup_datetime r) = true).
Proof.
  intros Hloader Hclock.
  set (to := floor_h (utcnow clock)).
  set (from := {| ticks := ticks to - timedelta_days 28; tzinfo := None |}).
  assert (Hto : ticks to = clock / US_PER_HOUR * US_PER_HOUR) by done.
  assert (Hfloor : ticks to <= clock < ticks to + US_PER_HOUR).
  { rewrite Hto. unfold US_PER_HOUR. Z.div_mod_to_equations. lia. }
  assert (Hmin : TIMESTAMP_MIN = 52912224763145225) by reflexivity.
  assert (Hmax : TIMESTAMP_MAX = 71358968836854775) by reflexivity.
  assert (Hmaxt : MAX_TICKS = 315537897600000000) by reflexivity.
  assert (Hbounds : forall x, TIMESTAMP_MIN <= x <= TIMESTAMP_MAX ->
                              timestamp_in_bounds x = true).
  { intros x Hx. unfold timestamp_in_bounds.
    apply andb_true_intro. split; apply Z.leb_le; lia. }
  unfold timedelta_days, timedelta, US_PER_DAY, US_PER_HOUR in *.
  assert (Hfrom : ticks from = ticks to - 28 * 86400000000) by done.
  exists from, to. split.
  { unfold fetch_data_window. fold to.
    rewrite (Hbounds clock), (Hbounds (ticks to)); [|lia..].
    cbn [ticks]. unfold timedelta_days, US_PER_DAY.
    rewrite (Hbounds (ticks to - 28 * 86400000000)); [done|lia]. }
  do 3 (split; [done|]).
  split; [lia|].
  split; [rewrite Hfrom, Hto; Z.div_mod_to_equations; lia|].
  split.
  { apply validate_dates_Ok. do 2 (split; [done|]).
    unfold datetime_ge. cbn [tzinfo from to floor_h utcnow]. f_equal.
    apply Z.leb_gt. lia. }
  split.
  { eexists _, _. split; [|split].
    - apply historical_dates_Ok.
      unfold timedelta, US_PER_DAY. repeat split; try reflexivity; lia.
    - apply Hbounds. cbn [ticks]. unfold timedelta, US_PER_DAY. lia.
    - apply Hbounds. cbn [ticks]. unfold timedelta, US_PER_DAY. lia. }
  intros s out s' Hrun.
  destruct (fetch_batch_raw_data_Ok_parsed (PyDatetime from) (PyDatetime to)
              from to _ _ _ eq_refl eq_refl Hrun)
    as (_ & _ & _ & hist & Hl & ->).
  destruct (load_historical_rides_short_window archive
              (ticks from - timedelta 52) (ticks to - timedelta 52) _ _ _ Hloader
              ltac:(unfold timedelta, US_PER_DAY; lia)
              ltac:(unfold timedelta, US_PER_DAY; lia) Hl) as [Hall Honly].
  split.
  - intros r0 Hr0 Hwin. rewrite sort_values_Permutation.
    apply add_to_pickup_datetime_elem_of. exists r0. split; [|done].
    by apply Hall.
  - intros r Hr. rewrite sort_values_Permutation in Hr.
    apply add_to_pickup_datetime_elem_of in Hr as (r0 & Hr0 & -> & _).
    destruct (Honly r0 Hr0) as (_ & Hlo & Hhi).
    unfold timedelta, US_PER_DAY in *.
    split; [lia|]. split; [lia|]. apply Hbounds. lia.
Qed.


(** X11. A failure of the loader ends the run with the loader's error and
    no table: on the first call the second call is never made, and on the
    second call, which is made only for naive bounds of different month
    numbers, the rides of the first call are not returned. *)
Theorem fetch_loader_failure (from_date to_date : pyobj) (f t : datetime)
    (s : state W) :
  validate from_date to_date = Ok (f, t) ->
  0 <= ticks f - timedelta 52 < MAX_TICKS ->
  0 <= ticks t - timedelta 52 < MAX_TICKS ->
  let hf := ticks f - timedelta 52 in
  let ht := ticks t - timedelta 52 in
  let first := (year_of_ticks hf, [month_of_ticks hf]) in
  let second := (year_of_ticks ht, [month_of_ticks ht]) in
  (forall e w1,
     loader (year_of_ticks hf) [month_of_ticks hf] (world s) = (inl e, w1) ->
     fetch from_date to_date s =
     (Raise (LoaderError e), {| world := w1; calls := calls s ++ [first] |})) /\
  (forall rides_from w1 e w2,
     loader (year_of_ticks hf) [month_of_ticks hf] (world s) = (inr rides_from, w1) ->
     tzinfo f = None ->
     month_of_ticks ht <> month_of_ticks hf ->
     loader (year_of_ticks ht) [month_of_ticks ht] w1 = (inl e, w2) ->
     fetch from_date to_date s =
     (Raise (LoaderError e),
      {| world := w2; calls := calls s ++ [first; second] |})).
Proof.
  intros Hv Hrf Hrt. cbv zeta.
  assert (Hh : historical_dates (E:=E) f t =
               Ok ({| ticks := ticks f - timedelta 52; tzinfo := tzinfo f |},
                   {| ticks := ticks t - timedelta 52; tzinfo := tzinfo t |}))
    by by apply historical_dates_Ok.
  rewrite fetch_batch_raw_data_unfold, Hv, Hh.
  unfold load_historical_rides, mbind, M_bind, mret, M_ret, lift, call_loader,
    filter_ge, filter_lt, year, month. cbn [ticks tzinfo].
  split.
  - intros e w1 ->. done.
  - intros rides_from w1 e w2 -> -> Hm Hl2.
    destruct (Z.eqb_spec (month_of_ticks (ticks t - timedelta 52))
                (month_of_ticks (ticks f - timedelta 52))) as [|_]; [done|].
    cbn [negb world calls]. rewrite Hl2. cbn [calls]. by rewrite <- app_assoc.
Qed.

(** X12. Only naive dates yield data: a successful run had two naive
    dates; a naive date with an aware one ends in [TypeError] before any
    loader call; two aware dates in order end in [TypeError] after the first
    loader call, which is made. *)
Theorem fetch_needs_naive_dates (from_date to_date : pyobj) (s : state W) :
  (forall out s', fetch from_date to_date s = (Ok out, s') ->
     exists f t,
       parse from_date = Ok (PyDatetime f) /\
       parse to_date = Ok (PyDatetime t) /\
       tzinfo f = None /\ tzinfo t = None) /\
  (forall f t,
     parse from_date = Ok (PyDatetime f) ->
     parse to_date = Ok (PyDatetime t) ->
     (tzinfo f = None <-> tzinfo t <> None) ->
     exists msg, fetch from_date to_date s = (Raise (TypeError msg), s)) /\
  (forall f t rides w1,
     validate from_date to_date = Ok (f, t) ->
     tzinfo f <> None ->
     0 <= ticks f - timedelta 52 < MAX_TICKS ->
     0 <= ticks t - timedelta 52 < MAX_TICKS ->
     loader (year_of_ticks (ticks f - timedelta 52))
       [month_of_ticks (ticks f - timedelta 52)] (world s) = (inr rides, w1) ->
     exists msg,
       fetch from_date to_date s =
       (Raise (TypeError msg),
        {| world := w1;
           calls := calls s ++ [(year_of_ticks (ticks f - timedelta 52),
                                 [month_of_ticks (ticks f - timedelta 52)])] |})).
Proof.
  split; [|split].
  - intros out s' (f & t & hf & ht & hist & Hv & Hh & Hl & _)%fetch_batch_raw_data_Ok.
    apply validate_dates_Ok in Hv as (Hpf & Hpt & Hge).
    apply historical_dates_Ok in Hh as (_ & _ & -> & ->).
    apply load_historical_rides_Ok in Hl as (Htz & _). cbn [tzinfo] in Htz.
    exists f, t. do 3 (split; [done|]).
    apply datetime_ge_false in Hge as [(_ & ? & _)|(? & ? & ? & _)];
      [done|congruence].
  - intros f t Hpf Hpt Hmixed. rewrite fetch_batch_raw_data_unfold.
    unfold validate_dates, mbind, result_bind. rewrite Hpf, Hpt.
    unfold datetime_ge.
    destruct Hmixed as [H1 H2].
    destruct (tzinfo f), (tzinfo t); eauto.
    + discriminate (H2 ltac:(done)).
    + destruct (H1 eq_refl eq_refl).
  - intros f t rides w1 Hv Hf Hrf Hrt Hl.
    assert (Hh : historical_dates (E:=E) f t =
                 Ok ({| ticks := ticks f - timedelta 52; tzinfo := tzinfo f |},
                     {| ticks := ticks t - timedelta 52; tzinfo := tzinfo t |}))
      by by apply historical_dates_Ok.
    rewrite fetch_batch_raw_data_unfold, Hv, Hh.
    unfold load_historical_rides, mbind, M_bind, mret, M_ret, lift, call_loader,
      filter_ge, filter_lt, year, month. cbn [ticks tzinfo]. rewrite Hl.
    destruct (tzinfo f); [eauto|done].
Qed.

(** X14. Dates less than 52 weeks after the earliest datetime: after a
    passed validation the shift raises [OverflowError], before any loader
    call. *)
Theorem fetch_overflow_before_loading (from_date to_date : pyobj)
    (f t : datetime) (s : state W) :
  validate from_date to_date = Ok (f, t) ->
  ticks f < timedelta 52 \/ ticks t < timedelta 52 ->
  exists msg, fetch from_date to_date s = (Raise (OverflowError msg), s).
Proof.
  intros Hv Hearly. rewrite fetch_batch_raw_data_unfold, Hv.
  destruct (historical_dates f t) as [[hf ht]|e] eqn:Hh.
  - apply historical_dates_Ok in Hh as (? & ? & _). lia.
  - apply historical_dates_Raise in Hh as [msg ->]. eauto.
Qed.

End MoreFetchFacts.

Section ShiftMoreFacts.
Context {E : Type}.

(** X13. The shift by 52 weeks keeps the weekday and the time of day of
    both bounds and the length of the window, and relabeling a ride keeps its
    weekday and its time of day. *)
Theorem historical_dates_keep_weekday_and_time (f t hf ht : datetime) :
  historical_dates (E:=E) f t = Ok (hf, ht) ->
  (weekday hf = weekday f /\ hour hf = hour f /\ minute hf = minute f /\
   second hf = second f /\ microsecond hf = microsecond f) /\
  (weekday ht = weekday t /\ hour ht = hour t /\ minute ht = minute t /\
   second ht = second t /\ microsecond ht = microsecond t) /\
  ticks ht - ticks hf = ticks t - ticks f /\
  (forall rides r, r ∈ add_to_pickup_datetime (timedelta 52) rides ->
     exists r0, r0 ∈ rides /\
       weekday_of_ticks (pickup_datetime r) = weekday_of_ticks (pickup_datetime r0) /\
       pickup_datetime r mod US_PER_DAY = pickup_datetime r0 mod US_PER_DAY).
Proof.
  intros (_ & _ & -> & ->)%historical_dates_Ok.
  assert (Hfields : forall x,
    weekday_of_ticks (x - timedelta 52) = weekday_of_ticks x /\
    (x - timedelta 52) mod US_PER_DAY / US_PER_HOUR = x mod US_PER_DAY / US_PER_HOUR /\
    (x - timedelta 52) mod US_PER_HOUR / US_PER_MINUTE
      = x mod US_PER_HOUR / US_PER_MINUTE /\
    (x - timedelta 52) mod US_PER_MINUTE / US_PER_SECOND
      = x mod US_PER_MINUTE / US_PER_SECOND /\
    (x - timedelta 52) mod US_PER_SECOND = x mod US_PER_SECOND).
  { intros x. split.
    - rewrite <- (weekday_of_ticks_weeks (x - timedelta 52) 52). f_equal. lia.
    - unfold timedelta, US_PER_DAY, US_PER_HOUR, US_PER_MINUTE, US_PER_SECOND.
      repeat split; Z.div_mod_to_equations; lia. }
  unfold weekday, hour, minute, second, microsecond. cbn [ticks].
  split; [apply Hfields|]. split; [apply Hfields|]. split; [lia|].
  intros rides r (r0 & Hr0 & -> & _)%add_to_pickup_datetime_elem_of.
  exists r0. split; [done|]. split; [apply weekday_of_ticks_weeks|].
  unfold timedelta, US_PER_DAY. Z.div_mod_to_equations. lia.
Qed.

End ShiftMoreFacts.

#[global] Instance ride_le_antisym : AntiSymm (=) ride_le.
Proof.
  intros [t1 l1] [t2 l2]. unfold ride_le. cbn. intros H1 H2.
  f_equal; lia.
Qed.

(** X17. Relabeling and sorting give canonical columns: the values of
    [pickup_datetime] and [pickup_location_id], read row by row, depend only
    on which rides were loaded and how often, not on the order of the
    loader's rows or of the concatenation, and sorting again leaves them as
    they are.  This is about the two columns only: the index labels, which
    [sort_values] leaves with their rows, still show the order before the
    sort. *)
Theorem relabel_sort_canonical (delta : Z) (rides1 rides2 : list ride) :
  rides1 ≡ₚ rides2 ->
  sort_values (add_to_pickup_datetime delta rides1)
  = sort_values (add_to_pickup_datetime delta rides2) /\
  sort_values (sort_values rides1) = sort_values rides1.
Proof.
  intros Hperm. split.
  - apply (Sorted_unique ride_le); [apply Sorted_merge_sort; apply _ ..|].
    rewrite !sort_values_Permutation. unfold add_to_pickup_datetime.
    by rewrite Hperm.
  - apply (Sorted_unique ride_le); [apply Sorted_merge_sort; apply _ ..|].
    apply sort_values_Permutation.
Qed.

(** ** The feature-store cell *)

Section FeatureStoreCellFacts.
Context {W E : Type}.
Variable int_of_str : string -> option Z.
Variable hopsworks_login : string -> string -> W -> (E + unit) * W.
Variable get_feature_store : W -> (E + unit) * W.
Variable get_feature_group : string -> Z -> W -> (E + unit) * W.

#[local] Abbreviation connect :=
  (connect_to_feature_group int_of_str hopsworks_login get_feature_store
     get_feature_group).
#[local] Abbreviation validated :=
  (connect_validated hopsworks_login get_feature_store get_feature_group).

(** The cell, after its four prints. *)
Lemma connect_to_feature_group_unfold (env : gmap string string)
    (s : cell_state W) :
  connect env s =
  let s0 := {| store := store s; stdout := stdout s ++ debug_lines env |} in
  match truthy (env !! "HOPSWORKS_PROJECT_NAME"), truthy (env !! "HOPSWORKS_API_KEY"),
        truthy (env !! "FEATURE_GROUP_NAME"), truthy (env !! "FEATURE_GROUP_VERSION")
  with
  | Some project_name, Some api_key, Some feature_group_name, Some version =>
      match int_of_str version with
      | None => (Raise (ValueError "invalid literal for int() with base 10"), s0)
      | Some v => validated project_name api_key feature_group_name v s0
      end
  | _, _, _, _ =>
      (Raise (ValueError "One or more required environment variables are missing."),
       s0)
  end.
Proof.
  unfold connect_to_feature_group, mbind, Cell_bind, print, raise, debug_lines.
  cbn [store stdout]. rewrite <- !app_assoc. cbn [app].
  repeat case_match; reflexivity.
Qed.

(** The external calls and the prints after the validation only add
    lines. *)
Lemma connect_validated_run (project_name api_key feature_group_name : string)
    (v : Z) (s s' : cell_state W) (r : result E unit) :
  validated project_name api_key feature_group_name v s = (r, s') ->
  exists rest, stdout s' = stdout s ++ rest.
Proof.
  unfold connect_validated, mbind, Cell_bind, print, external.
  destruct (hopsworks_login project_name api_key (store s)) as [[e|u] w1];
    cbn [store stdout].
  { intros [= <- <-]. exists []. by rewrite app_nil_r. }
  destruct (get_feature_store w1) as [[e|u2] w2]; cbn [store stdout].
  { intros [= <- <-]. by eexists. }
  destruct (get_feature_group feature_group_name v w2) as [[e|u3] w3];
    cbn [store stdout].
  { intros [= <- <-]. by eexists. }
  intros [= <- <-]. cbn [stdout]. rewrite <- app_assoc. by eexists.
Qed.

(** X15. Cell 14 prints its four debug lines before anything else, the API
    key among them in clear: whatever the outcome of the run, validation
    failures included, the output continues with these lines and contains the
    line that shows the key. *)
Theorem cell_prints_api_key (env : gmap string string) (key : string)
    (s s' : cell_state W) (r : result E unit) :
  env !! "HOPSWORKS_API_KEY" = Some key ->
  connect env s = (r, s') ->
  (exists rest, stdout s' = stdout s ++ debug_lines env ++ rest) /\
  ("HOPSWORKS_API_KEY: " +:+ key) ∈ stdout s'.
Proof.
  intros Hkey Hrun.
  assert (Hpre : exists rest, stdout s' = stdout s ++ debug_lines env ++ rest).
  { rewrite connect_to_feature_group_unfold in Hrun. cbv zeta in Hrun.
    repeat case_match;
      try (injection Hrun as <- <-; exists []; cbn [stdout];
           by rewrite app_nil_r).
    apply connect_validated_run in Hrun as [rest Hrest].
    exists rest. rewrite Hrest. cbn [stdout]. by rewrite <- app_assoc. }
  split; [done|]. destruct Hpre as [rest ->].
  apply elem_of_app. right. apply elem_of_app. left.
  unfold debug_lines. rewrite Hkey. cbn [str_of_getenv default].
  apply list_elem_of_further, list_elem_of_here.
Qed.

(** X16. Cell 14 validates before it connects: whenever one of the four
    variables is unset or empty, or the version is not an integer literal,
    the run ends in [ValueError] after the four debug lines, and no call to
    the feature store has been made. *)
Theorem cell_validates_before_connecting (env : gmap string string)
    (s : cell_state W) :
  (truthy (env !! "HOPSWORKS_PROJECT_NAME") = None \/
   truthy (env !! "HOPSWORKS_API_KEY") = None \/
   truthy (env !! "FEATURE_GROUP_NAME") = None \/
   truthy (env !! "FEATURE_GROUP_VERSION") = None \/
   exists version,
     truthy (env !! "FEATURE_GROUP_VERSION") = Some version /\
     int_of_str version = None) ->
  exists msg,
    connect env s
    = (Raise (ValueError msg),
       {| store := store s; stdout := stdout s ++ debug_lines env |}).
Proof.
  rewrite connect_to_feature_group_unfold. cbv zeta. intros Hinvalid.
  destruct (truthy (env !! "HOPSWORKS_PROJECT_NAME")) as [pn|]; [|by eexists].
  destruct (truthy (env !! "HOPSWORKS_API_KEY")) as [k|]; [|by eexists].
  destruct (truthy (env !! "FEATURE_GROUP_NAME")) as [n|]; [|by eexists].
  destruct (truthy (env !! "FEATURE_GROUP_VERSION")) as [ver|]; [|by eexists].
  destruct Hinvalid as [|[|[|[|(ver' & [= <-] & Hint)]]]]; try done.
  rewrite Hint. by eexists.
Qed.

End FeatureStoreCellFacts.

(** ** Witnesses for the other cells *)

Module MoreWitnesses.
Import Examples MoreExamples.

Lemma archive_loader_serves_months (rides0 : list ride) (y : Z) (months : list Z)
    (w : unit) (rides : list ride) (w' : unit) :
  archive_loader rides0 y months w = (inr rides, w') ->
  forall r, r ∈ rides <->
    r ∈ rides0 /\ year_of_ticks (pickup_datetime r) = y /\
    month_of_ticks (pickup_datetime r) ∈ months.
Proof.
  unfold archive_loader. intros [= <- _] r.
  rewrite list_elem_of_filter. tauto.
Qed.

Lemma archive_loader_in_month (rides0 : list ride) (y : Z) (months : list Z)
    (w : unit) (rides : list ride) (w' : unit) :
  archive_loader rides0 y months w = (inr rides, w') ->
  forall r, r ∈ rides ->
    year_of_ticks (pickup_datetime r) = y /\
    month_of_ticks (pickup_datetime r) ∈ months.
Proof.
  unfold archive_loader. intros [= <- _] r Hr.
  by apply list_elem_of_filter in Hr as [? _].
Qed.

Lemma get_current_utc_hour_ceiled_whole_hour_witness :
  exists c,
    get_current_utc_hour_ceiled (E:=Empty_set) notebook_clock = Ok c /\
    tzinfo c = Some 0 /\
    minute c = 0 /\ second c = 0 /\ microsecond c = 0 /\
    notebook_clock - US_PER_SECOND < ticks c < notebook_clock + US_PER_HOUR.
Proof.
  apply (get_current_utc_hour_ceiled_whole_hour (E:=Empty_set) notebook_clock);
    by vm_compute.
Defined.

Lemma get_current_utc_hour_ceiled_vs_ceil_witness :
  exists c,
    get_current_utc_hour_ceiled (E:=Empty_set) just_past_the_hour = Ok c /\
    ticks c < just_past_the_hour /\
    ticks c = ticks (ceil_h (now_utc just_past_the_hour)) - US_PER_HOUR.
Proof.
  destruct (get_current_utc_hour_ceiled_vs_ceil (E:=Empty_set) just_past_the_hour)
    as (c & Hc & Hfirst & _); [by vm_compute..|].
  exists c. split; [done|]. apply Hfirst; by vm_compute.
Defined.

Lemma next_hour_strictly_after_witness :
  exists nh,
    next_hour (E:=Empty_set) notebook_clock = Ok nh /\
    tzinfo nh = Some 0 /\
    minute nh = 0 /\ second nh = 0 /\ microsecond nh = 0 /\
    ticks nh = ticks (floor_h (now_utc notebook_clock)) + US_PER_HOUR /\
    notebook_clock < ticks nh <= notebook_clock + US_PER_HOUR.
Proof.
  apply (next_hour_strictly_after (E:=Empty_set) notebook_clock); by vm_compute.
Defined.

Lemma next_hour_vs_ceiled_witness :
  exists nh c,
    next_hour (E:=Empty_set) just_past_the_hour = Ok nh /\
    get_current_utc_hour_ceiled (E:=Empty_set) just_past_the_hour = Ok c /\
    ticks nh = ticks c + US_PER_HOUR.
Proof.
  destruct (next_hour_vs_ceiled (E:=Empty_set) just_past_the_hour)
    as (nh & c & Hnh & Hc & _ & Hzero); [by vm_compute..|].
  exists nh, c. do 2 (split; [done|]). apply Hzero; by vm_compute.
Defined.

Lemma fetch_next_hour_predictions_rows_witness :
  exists rows,
    fetch_next_hour_predictions store_ok notebook_clock predictions tt
      = (Ok rows, tt) /\
    length rows = 2%nat /\
    forall p, p ∈ rows ->
      notebook_clock < pickup_hour p <= notebook_clock + US_PER_HOUR /\
      pickup_hour p mod US_PER_HOUR = 0.
Proof.
  destruct (proj1 (fetch_next_hour_predictions_rows store_ok notebook_clock
                     predictions tt ltac:(by vm_compute) ltac:(by vm_compute))
              tt eq_refl) as (rows & Hrun & Hrows & _ & Hall).
  exists rows. split; [done|]. split; [|done]. rewrite Hrows. by vm_compute.
Defined.

#[local] Abbreviation fetch :=
  (fetch_batch_raw_data fromisoformat_date (archive_loader archive)).

Lemma fetch_two_months_within_window_witness :
  Forall (fun r => ticks fetch_data_from <= pickup_datetime r < ticks fetch_data_to)
    fetched.
Proof.
  apply Forall_forall.
  apply (fetch_two_months_within_window fromisoformat_date (archive_loader archive)
           (PyDatetime fetch_data_from) (PyDatetime fetch_data_to)
           fetch_data_from fetch_data_to initial fetched_state fetched).
  - apply archive_loader_in_month.
  - reflexivity.
  - reflexivity.
  - by vm_compute.
  - vm_compute. reflexivity.
Defined.

Lemma fetch_loader_calls_witness :
  calls fetched_state = calls initial ++ [(2024, [2]); (2024, [3])].
Proof.
  destruct (fetch_loader_calls fromisoformat_date (archive_loader archive)
              (PyDatetime fetch_data_from) (PyDatetime fetch_data_to)
              initial fetched_state (Ok fetched))
    as [[_ Hno]|(f & t & Hv & _ & Hok)].
  - vm_compute. reflexivity.
  - by destruct (Hno fetched).
  - injection Hv as <- <-. exact (Hok fetched eq_refl).
Defined.

Lemma fetch_only_boundary_months_witness :
  exists f t,
    validate_dates (E:=Empty_set) fromisoformat_date
      (PyDatetime fetch_data_from) (PyDatetime fetch_data_to) = Ok (f, t) /\
    forall r, r ∈ fetched ->
      let t0 := pickup_datetime r - timedelta 52 in
      (year_of_ticks t0 = year_of_ticks (ticks f - timedelta 52) /\
       month_of_ticks t0 = month_of_ticks (ticks f - timedelta 52)) \/
      (year_of_ticks t0 = year_of_ticks (ticks t - timedelta 52) /\
       month_of_ticks t0 = month_of_ticks (ticks t - timedelta 52)).
Proof.
  apply (fetch_only_boundary_months fromisoformat_date (archive_loader archive)
           (PyDatetime fetch_data_from) (PyDatetime fetch_data_to)
           initial fetched_state fetched).
  - apply archive_loader_in_month.
  - vm_compute. reflexivity.
Defined.

Lemma fetch_short_window_complete_witness :
  (forall r0, r0 ∈ archive ->
     ticks fetch_data_from - timedelta 52 <= pickup_datetime r0
       < ticks fetch_data_to - timedelta 52 ->
     {| pickup_datetime := pickup_datetime r0 + timedelta 52;
        pickup_location_id := pickup_location_id r0 |} ∈ fetched) /\
  (forall r, r ∈ fetched ->
     exists r0, r0 ∈ archive /\
       ticks fetch_data_from - timedelta 52 <= pickup_datetime r0 /\
       pickup_datetime r = pickup_datetime r0 + timedelta 52 /\
       pickup_location_id r = pickup_location_id r0).
Proof.
  apply (fetch_short_window_complete fromisoformat_date (archive_loader archive)
           archive (PyDatetime fetch_data_from) (PyDatetime fetch_data_to)
           fetch_data_from fetch_data_to initial fetched_state fetched).
  - apply archive_loader_serves_months.
  - reflexivity.
  - reflexivity.
  - by vm_compute.
  - vm_compute. reflexivity.
Defined.

Lemma fetch_data_window_run_witness :
  exists fetch_data_from fetch_data_to,
    fetch_data_window backfill_clock = Some (fetch_data_from, fetch_data_to) /\
    tzinfo fetch_data_from = None /\ tzinfo fetch_data_to = None /\
    ticks fetch_data_to = backfill_clock / US_PER_HOUR * US_PER_HOUR /\
    ticks fetch_data_to - ticks fetch_data_from = 672 * US_PER_HOUR /\
    ticks fetch_data_from mod US_PER_HOUR = 0 /\
    validate_dates (E:=Empty_set) fromisoformat_date
      (PyDatetime fetch_data_from) (PyDatetime fetch_data_to)
      = Ok (fetch_data_from, fetch_data_to) /\
    (exists hf ht,
       historical_dates (E:=Empty_set) fetch_data_from fetch_data_to
         = Ok (hf, ht) /\
       timestamp_in_bounds (ticks hf) = true /\
       timestamp_in_bounds (ticks ht) = true) /\
    forall s out s',
      fetch (PyDatetime fetch_data_from) (PyDatetime fetch_data_to) s
        = (Ok out, s') ->
      (forall r0, r0 ∈ archive ->
         ticks fetch_data_from - timedelta 52 <= pickup_datetime r0
           < ticks fetch_data_to - timedelta 52 ->
         {| pickup_datetime := pickup_datetime r0 + timedelta 52;
            pickup_location_id := pickup_location_id r0 |} ∈ out) /\
      (forall r, r ∈ out ->
         ticks fetch_data_from <= pickup_datetime r
           < ticks fetch_data_from + timedelta_days 31 /\
         pickup_datetime r < ticks fetch_data_to + timedelta_days 3 /\
         timestamp_in_bounds (pickup_datetime r) = true).
Proof.
  apply (fetch_data_window_run fromisoformat_date (archive_loader archive)
           archive backfill_clock).
  - apply archive_loader_serves_months.
  - by vm_compute.
Defined.

Lemma fetch_loader_failure_witness :
  fetch_batch_raw_data fromisoformat_date failing_loader
    (PyDatetime fetch_data_from) (PyDatetime fetch_data_to) initial
  = (Raise (LoaderError tt), {| world := tt; calls := [(2024, [2])] |}).
Proof.
  apply (proj1 (fetch_loader_failure fromisoformat_date failing_loader
                  (PyDatetime fetch_data_from) (PyDatetime fetch_data_to)
                  fetch_data_from fetch_data_to initial eq_refl
                  ltac:(by vm_compute) ltac:(by vm_compute)) tt tt).
  reflexivity.
Defined.

Lemma fetch_needs_naive_dates_witness :
  exists msg,
    fetch (PyDatetime aware_from) (PyDatetime fetch_data_to) initial
    = (Raise (TypeError msg), initial).
Proof.
  apply (proj1 (proj2 (fetch_needs_naive_dates fromisoformat_date
                         (archive_loader archive)
                         (PyDatetime aware_from) (PyDatetime fetch_data_to) initial))
           aware_from fetch_data_to eq_refl eq_refl).
  split; [discriminate | intros H; by destruct H].
Defined.

Lemma historical_dates_keep_weekday_and_time_witness :
  weekday (mk_datetime 2024 2 6 6 0 0) = weekday fetch_data_from /\
  hour (mk_datetime 2024 2 6 6 0 0) = hour fetch_data_from /\
  weekday fetch_data_from = 1.
Proof.
  destruct (historical_dates_keep_weekday_and_time (E:=Empty_set)
              fetch_data_from fetch_data_to
              (mk_datetime 2024 2 6 6 0 0) (mk_datetime 2024 3 5 6 0 0) eq_refl)
    as ((Hw & Hh & _) & _).
  split; [done|]. split; [done|]. reflexivity.
Defined.

Lemma fetch_overflow_before_loading_witness :
  exists msg,
    fetch (PyDatetime early_from) (PyDatetime early_to) initial
    = (Raise (OverflowError msg), initial).
Proof.
  apply (fetch_overflow_before_loading fromisoformat_date (archive_loader archive)
           (PyDatetime early_from) (PyDatetime early_to) early_from early_to
           initial eq_refl).
  left. by vm_compute.
Defined.

Lemma relabel_sort_canonical_witness :
  sort_values (add_to_pickup_datetime (timedelta 52) (reverse archive))
  = sort_values (add_to_pickup_datetime (timedelta 52) archive) /\
  sort_values (sort_values (reverse archive)) = sort_values (reverse archive).
Proof.
  apply (relabel_sort_canonical (timedelta 52) (reverse archive) archive).
  apply reverse_Permutation.
Defined.

#[local] Abbreviation connect :=
  (connect_to_feature_group int_of_digits login_ok store_ok feature_group_ok).

Lemma cell_prints_api_key_witness :
  "HOPSWORKS_API_KEY: secret"
    ∈ stdout (connect env_without_version cell_initial).2.
Proof.
  destruct (connect env_without_version cell_initial) as [r s'] eqn:Hrun.
  destruct (cell_prints_api_key int_of_digits login_ok store_ok feature_group_ok
              env_without_version "secret" cell_initial s' r eq_refl Hrun)
    as [_ Hin].
  exact Hin.
Defined.

Lemma cell_validates_before_connecting_witness :
  exists msg,
    connect env_without_version cell_initial
    = (Raise (ValueError msg),
       {| store := tt; stdout := debug_lines env_without_version |}).
Proof.
  apply (cell_validates_before_connecting int_of_digits login_ok store_ok
           feature_group_ok env_without_version cell_initial).
  do 3 right. left. reflexivity.
Defined.

End MoreWitnesses.
